(** * Clinical Trials MCP server: shallow embedding of src/src/index.ts

    The handlers of [ClinicalTrialsServer] are modelled as functions over a
    small state-and-exception monad: the state is the log of query parameter
    objects sent to the registry endpoint [GET /studies], and exceptions are
    the [McpError]s the handlers throw and the axios errors raised by the
    HTTP client.  The registry itself is a parameter [upstream] of the
    handlers.

    JavaScript strings are modelled as Rocq strings whose characters are the
    UTF-16 code units below 256 (Latin-1); [toLowerCase], the [\s] class and
    [\d] are written out for that range. *)

From Stdlib Require Import String Ascii List ZArith Bool Lia.
Import ListNotations.
Local Open Scope Z_scope.
Local Open Scope string_scope.
Local Open Scope list_scope.

(* ------------------------------------------------------------------ *)
(** ** Data model: the [Study] and [StudySearchResponse] interfaces     *)
(* ------------------------------------------------------------------ *)

Record identificationModule := {
  nctId : string;
  briefTitle : string;
  officialTitle : option string
}.

Record dateStruct := { date : string; date_type : string }.

Record statusModule := {
  overallStatus : string;
  startDateStruct : option dateStruct;
  primaryCompletionDateStruct : option dateStruct
}.

(** [leadSponsor?.name] is read with optional chaining in the source. *)
Record leadSponsor := { sponsor_name : option string; sponsor_class : string }.

Record sponsorCollaboratorsModule := { leadSponsor_ : option leadSponsor }.

Record conditionsModule := { conditions : option (list string) }.

Record designModule := { phases : option (list string); studyType : string }.

Record location := {
  facility : string;
  city : string;
  loc_state : option string;
  country : string
}.

Record contactsLocationsModule := { locations : option (list location) }.

(** [eligibilityCriteria?.] is read with optional chaining in the source. *)
Record eligibilityModule := {
  eligibilityCriteria : option string;
  healthyVolunteers : bool;
  sex : string;
  minimumAge : option string;
  maximumAge : option string
}.

Record study := {
  identification : identificationModule;
  status : statusModule;
  sponsorCollaborators : option sponsorCollaboratorsModule;
  conditionsMod : option conditionsModule;
  design : option designModule;
  contactsLocations : option contactsLocationsModule;
  eligibility : option eligibilityModule
}.

Record StudySearchResponse := {
  studies : list study;
  totalCount : Z
}.

(* ------------------------------------------------------------------ *)
(** ** JavaScript helpers: truthiness and [||]                          *)
(* ------------------------------------------------------------------ *)

Module Js.

(** [a || b] on strings: the empty string is falsy. *)
Definition or_str (a b : string) : string :=
  if String.eqb a "" then b else a.

(** [x || b] where [x] may be [undefined]. *)
Definition or_opt_str (a : option string) (b : string) : string :=
  match a with Some s => or_str s b | None => b end.

(** [n || b] on numbers: [0] is falsy. *)
Definition or_opt_num (a : option Z) (b : Z) : Z :=
  match a with Some n => if Z.eqb n 0 then b else n | None => b end.

Definition truthy_str (a : option string) : bool :=
  match a with Some s => negb (String.eqb s "") | None => false end.

Definition truthy_num (a : option Z) : bool :=
  match a with Some n => negb (Z.eqb n 0) | None => false end.

(** String conversion of a possibly [undefined] value, as done by [+]. *)
Definition to_string_opt (a : option string) : string :=
  match a with Some s => s | None => "undefined" end.

(** [Array.prototype.slice(0, n)]. *)
Definition slice0 {A} (n : nat) (l : list A) : list A := firstn n l.

(** [new Set(xs)] as the list of its elements in insertion order. *)
Definition set_of (xs : list string) : list string :=
  fold_left (fun acc x => if existsb (String.eqb x) acc then acc else acc ++ [x])
    xs [].

Definition set_has (s : list string) (x : string) : bool :=
  existsb (String.eqb x) s.

End Js.

(* ------------------------------------------------------------------ *)
(** ** String primitives                                                *)
(* ------------------------------------------------------------------ *)

Module Str.

(** [String.prototype.toLowerCase] on Latin-1 code units. *)
Definition lower_char (c : ascii) : ascii :=
  let n := nat_of_ascii c in
  if ((65 <=? n) && (n <=? 90))%nat
     || (((192 <=? n) && (n <=? 222)) && negb (n =? 215))%nat
  then ascii_of_nat (n + 32) else c.

Fixpoint toLowerCase (s : string) : string :=
  match s with
  | EmptyString => EmptyString
  | String c s' => String (lower_char c) (toLowerCase s')
  end.

(** The regular-expression class [\s] on Latin-1 code units: tab, line
    feed, vertical tab, form feed, carriage return, space and no-break
    space. *)
Definition is_ws (c : ascii) : bool :=
  let n := nat_of_ascii c in
  ((9 <=? n) && (n <=? 13))%nat || (n =? 32)%nat || (n =? 160)%nat.

(** [\d]: the ASCII digits. *)
Definition is_digit (c : ascii) : bool :=
  let n := nat_of_ascii c in ((48 <=? n) && (n <=? 57))%nat.

(** [s.split(/\s+/)]: each maximal run of whitespace separates two pieces;
    [cur] is the piece being read and [in_ws] says whether the previous
    character was whitespace (then [cur] is empty). *)
Fixpoint split_ws_aux (s cur : string) (in_ws : bool) : list string :=
  match s with
  | EmptyString => [cur]
  | String c s' =>
      if is_ws c then
        if in_ws then split_ws_aux s' cur true
        else cur :: split_ws_aux s' "" true
      else split_ws_aux s' (cur ++ String c "") false
  end.

Definition split_ws (s : string) : list string := split_ws_aux s "" false.

(** [hay.includes(needle)]. *)
Fixpoint includes (hay needle : string) : bool :=
  if String.prefix needle hay then true
  else match hay with
       | EmptyString => false
       | String _ h => includes h needle
       end.

(** [s.substring(0, n)]. *)
Definition substring0 (n : nat) (s : string) : string := substring 0 n s.

End Str.

(* ------------------------------------------------------------------ *)
(** ** The NCT identifier check [/^NCT\d{8}$/.test(id)]                *)
(* ------------------------------------------------------------------ *)

Module Nct.

(** Matches the literal [p] at the start of [s] and returns the rest. *)
Fixpoint match_literal (p s : string) : option string :=
  match p, s with
  | EmptyString, _ => Some s
  | String a p', String b s' => if Ascii.eqb a b then match_literal p' s' else None
  | String _ _, EmptyString => None
  end.

(** [\d{n}$]: exactly [n] digits, then the end of the input (no [m]
    flag, so [$] only matches at the end). *)
Fixpoint digits_then_end (n : nat) (s : string) : bool :=
  match n, s with
  | O, EmptyString => true
  | S n', String c s' => Str.is_digit c && digits_then_end n' s'
  | _, _ => false
  end.

Definition pattern_test (s : string) : bool :=
  match match_literal "NCT" s with
  | Some rest => digits_then_end 8 rest
  | None => false
  end.

(** The guard [!args?.nctId || !/^NCT\d{8}$/.test(args.nctId)] fails
    exactly when this is [false]. *)
Definition nct_ok (id : option string) : bool :=
  Js.truthy_str id && match id with Some s => pattern_test s | None => false end.

End Nct.

(* ------------------------------------------------------------------ *)
(** ** Query parameter objects                                          *)
(* ------------------------------------------------------------------ *)

Inductive pval := PStr (s : string) | PNum (n : Z) | PBool (b : bool).

(** A [params] object: keys in insertion order. *)
Definition query := list (string * pval).

(** [params[k] = v]: overwrite in place, or append a new key. *)
Fixpoint set_param (k : string) (v : pval) (q : query) : query :=
  match q with
  | [] => [(k, v)]
  | (k', v') :: q' =>
      if String.eqb k k' then (k, v) :: q' else (k', v') :: set_param k v q'
  end.

Fixpoint lookup_param (k : string) (q : query) : option pval :=
  match q with
  | [] => None
  | (k', v) :: q' => if String.eqb k k' then Some v else lookup_param k q'
  end.

(** [if (args?.x) params[k] = args.x;] for a string argument. *)
Definition set_if_str (k : string) (a : option string) (q : query) : query :=
  match a with
  | Some s => if Js.truthy_str a then set_param k (PStr s) q else q
  | None => q
  end.

(** The common prefix [{ format: 'json', pageSize: args?.pageSize || 10 }]. *)
Definition base_params (pageSize : option Z) : query :=
  [("format", PStr "json"); ("pageSize", PNum (Js.or_opt_num pageSize 10))].

(* ------------------------------------------------------------------ *)
(** ** The handler monad: query log, [McpError] and axios errors        *)
(* ------------------------------------------------------------------ *)

Inductive ErrorCode := InvalidParams | MethodNotFound | InternalError.

Record axios_error := {
  response_status : option Z;
  response_data_message : option string;
  message : string
}.

Inductive exn :=
  | McpError (code : ErrorCode) (msg : string)
  | AxiosError (e : axios_error).

(** What the registry answers to one [GET /studies]. *)
Inductive upstream_reply :=
  | Reply (r : StudySearchResponse)
  | Failure (e : axios_error).

(** The value a handler returns: either
    [{content: [{type: 'text', text}], isError: true}] or the JSON object
    whose [JSON.stringify] is the text content. *)
Inductive tool_result (A : Type) :=
  | ErrorText (text : string)
  | JsonText (payload : A).
Arguments ErrorText {A} text.
Arguments JsonText {A} payload.

Definition isError {A} (r : tool_result A) : bool :=
  match r with ErrorText _ => true | JsonText _ => false end.

Definition M (A : Type) : Type := list query -> list query * (exn + A).

Definition ret {A} (a : A) : M A := fun log => (log, inr a).

Definition bind {A B} (m : M A) (f : A -> M B) : M B :=
  fun log => match m log with
             | (log', inl e) => (log', inl e)
             | (log', inr a) => f a log'
             end.

Notation "x <- m ;; k" := (bind m (fun x => k))
  (at level 61, m at next level, right associativity).

Definition throw {A} (e : exn) : M A := fun log => (log, inl e).

(** [try { m } catch (error) { if (axios.isAxiosError(error)) h; throw error; }] *)
Definition catch_axios {A} (m : M A) (h : axios_error -> M A) : M A :=
  fun log => match m log with
             | (log', inl (AxiosError e)) => h e log'
             | r => r
             end.

(** [`Clinical Trials API error: ${error.response?.data?.message || error.message}`] *)
Definition api_error_text (e : axios_error) : string :=
  "Clinical Trials API error: "
    ++ Js.or_opt_str (response_data_message e) (message e).

(* ------------------------------------------------------------------ *)
(** ** Result projections                                               *)
(* ------------------------------------------------------------------ *)

(** The object built by [formatStudySummary]. *)
Record summary := {
  sum_nctId : string;
  sum_title : string;
  sum_status : string;
  sum_phase : list string;
  sum_studyType : string;
  sum_sponsor : string;
  sum_conditions : list string;
  sum_startDate : string
}.

Definition study_leadSponsor (s : study) : option leadSponsor :=
  match sponsorCollaborators s with Some m => leadSponsor_ m | None => None end.

(** [sponsorCollaboratorsModule?.leadSponsor?.name] *)
Definition study_sponsor_name (s : study) : option string :=
  match study_leadSponsor s with Some l => sponsor_name l | None => None end.

(** [conditionsModule?.conditions] *)
Definition study_conditions (s : study) : option (list string) :=
  match conditionsMod s with Some m => conditions m | None => None end.

(** [designModule?.phases] *)
Definition study_phases (s : study) : option (list string) :=
  match design s with Some d => phases d | None => None end.

(** [contactsLocationsModule?.locations] *)
Definition study_locations (s : study) : option (list location) :=
  match contactsLocations s with Some m => locations m | None => None end.

Definition formatStudySummary (s : study) : summary := {|
  sum_nctId := nctId (identification s);
  sum_title := briefTitle (identification s);
  sum_status := overallStatus (status s);
  sum_phase := match study_phases s with Some ps => ps | None => ["Not specified"] end;
  sum_studyType :=
    Js.or_opt_str (option_map studyType (design s)) "Unknown";
  sum_sponsor := Js.or_opt_str (study_sponsor_name s) "Not specified";
  sum_conditions :=
    match study_conditions s with Some cs => Js.slice0 3 cs | None => [] end;
  sum_startDate :=
    Js.or_opt_str (option_map date (startDateStruct (status s))) "Not specified"
|}.

(** The object built by [formatDetailedStudy]; [None] is [undefined]. *)
Record detailed := {
  det_nctId : string;
  det_briefTitle : string;
  det_officialTitle : option string;
  det_overallStatus : string;
  det_startDate : option string;
  det_primaryCompletionDate : option string;
  det_studyType : option string;
  det_phases : option (list string);
  det_sponsor : option leadSponsor;
  det_conditions : option (list string);
  det_eligibility : option eligibilityModule;
  det_locations : option (list location)
}.

Definition formatDetailedStudy (s : study) : detailed := {|
  det_nctId := nctId (identification s);
  det_briefTitle := briefTitle (identification s);
  det_officialTitle := officialTitle (identification s);
  det_overallStatus := overallStatus (status s);
  det_startDate := option_map date (startDateStruct (status s));
  det_primaryCompletionDate :=
    option_map date (primaryCompletionDateStruct (status s));
  det_studyType := option_map studyType (design s);
  det_phases := study_phases s;
  det_sponsor := study_leadSponsor s;
  det_conditions := study_conditions s;
  det_eligibility := eligibility s;
  det_locations := option_map (Js.slice0 10) (study_locations s)
|}.

(** The [eligibility] block of [get_recruiting_studies]. *)
Record elig_block := {
  eb_sex : string;
  eb_minimumAge : string;
  eb_maximumAge : string;
  eb_healthyVolunteers : bool
}.

Definition eligibility_block (s : study) : elig_block := {|
  eb_sex := Js.or_opt_str (option_map sex (eligibility s)) "Unknown";
  eb_minimumAge :=
    Js.or_opt_str (match eligibility s with Some m => minimumAge m | None => None end)
      "Not specified";
  eb_maximumAge :=
    Js.or_opt_str (match eligibility s with Some m => maximumAge m | None => None end)
      "Not specified";
  eb_healthyVolunteers :=
    match eligibility s with Some m => healthyVolunteers m || false | None => false end
|}.

(** [eligibilityModule?.eligibilityCriteria?.substring(0, 200) + '...'
      || 'Not available']: [+] binds tighter than [||], and an [undefined]
    left operand of [+] is converted to the string ["undefined"]. *)
Definition criteriaPreview (s : study) : string :=
  Js.or_str
    (Js.to_string_opt
       (match eligibility s with
        | Some m => option_map (Str.substring0 200) (eligibilityCriteria m)
        | None => None
        end) ++ "...")
    "Not available".

(** The [eligibility] block of [search_by_eligibility_criteria]. *)
Record elig_preview := {
  ep_sex : string;
  ep_minimumAge : string;
  ep_maximumAge : string;
  ep_healthyVolunteers : bool;
  ep_criteriaPreview : string
}.

Definition eligibility_preview (s : study) : elig_preview :=
  let b := eligibility_block s in {|
  ep_sex := eb_sex b;
  ep_minimumAge := eb_minimumAge b;
  ep_maximumAge := eb_maximumAge b;
  ep_healthyVolunteers := eb_healthyVolunteers b;
  ep_criteriaPreview := criteriaPreview s
|}.

(* ------------------------------------------------------------------ *)
(** ** Derived views                                                    *)
(* ------------------------------------------------------------------ *)

(** [eligibilityModule?.eligibilityCriteria?.toLowerCase() || ''] *)
Definition criteria_lower (s : study) : string :=
  match eligibility s with
  | Some m => match eligibilityCriteria m with
              | Some c => Js.or_str (Str.toLowerCase c) ""
              | None => ""
              end
  | None => ""
  end.

(** [!exclusionWords.some(word => eligibilityCriteria.includes(word))] *)
Definition keeps_study (exclusionWords : list string) (s : study) : bool :=
  negb (existsb (fun w => Str.includes (criteria_lower s) w) exclusionWords).

(** The exclusion step of [handleSearchByEligibilityCriteria]. *)
Definition exclusion_filter (exclusionKeywords : option string) (l : list study)
    : list study :=
  match exclusionKeywords with
  | Some kw =>
      if Js.truthy_str exclusionKeywords then
        filter (keeps_study (Str.split_ws (Str.toLowerCase kw))) l
      else l
  | None => l
  end.

(** [new Set(locations.map(loc => loc.country))] with
    [locations = contactsLocationsModule?.locations || []]. *)
Definition location_list (s : study) : list location :=
  match study_locations s with Some l => l | None => [] end.

Definition country_set (s : study) : list string :=
  Js.set_of (map country (location_list s)).

(** The filter callback of [handleSearchInternationalStudies]. *)
Definition international_keep (minCountries : option Z)
    (excludeCountry : option string) (s : study) : bool :=
  let countries := country_set s in
  let size := Z.of_nat (length countries) in
  if Js.truthy_num minCountries
     && Z.ltb size (match minCountries with Some m => m | None => 0 end)
  then false
  else if Js.truthy_str excludeCountry
          && Js.set_has countries (match excludeCountry with Some c => c | None => "" end)
  then false
  else Z.leb 2 size.

Section Handlers.

Variable upstream : query -> upstream_reply.

(** [this.axiosInstance.get('/studies', { params })]. *)
Definition http_get (q : query) : M StudySearchResponse :=
  fun log => match upstream q with
             | Reply r => (log ++ [q], inr r)
             | Failure e => (log ++ [q], inl (AxiosError e))
             end.

(** The message of the [McpError] thrown by the NCT identifier guard. *)
Definition invalid_nct_message : string :=
  "Valid NCT ID is required (format: NCT########)".

(** *** [handleSearchStudies] *)

Record search_args := {
  sa_query : option string;
  sa_condition : option string;
  sa_intervention : option string;
  sa_location : option string;
  sa_phase : option string;
  sa_status : option string;
  sa_sex : option string;
  sa_age : option string;
  sa_pageSize : option Z
}.

Definition search_studies_params (a : search_args) : query :=
  let q := base_params (sa_pageSize a) in
  let q := set_if_str "query.term" (sa_query a) q in
  let q := set_if_str "query.cond" (sa_condition a) q in
  let q := set_if_str "query.intr" (sa_intervention a) q in
  let q := set_if_str "query.locn" (sa_location a) q in
  let q := set_if_str "filter.phase" (sa_phase a) q in
  let q := set_if_str "filter.overallStatus" (sa_status a) q in
  let q := set_if_str "filter.sex" (sa_sex a) q in
  set_if_str "filter.stdAge" (sa_age a) q.

(** [response.data.totalCount || 0] *)
Definition reported_total (r : StudySearchResponse) : Z :=
  Js.or_opt_num (Some (totalCount r)) 0.

Record search_output := {
  so_totalCount : Z;
  so_resultsShown : nat;
  so_studies : list summary
}.

Definition handleSearchStudies (a : search_args) : M (tool_result search_output) :=
  let params := search_studies_params a in
  catch_axios
    (r <- http_get params ;;
     let results := map formatStudySummary (studies r) in
     ret (JsonText {| so_totalCount := reported_total r;
                      so_resultsShown := length results;
                      so_studies := results |}))
    (fun e => ret (ErrorText (api_error_text e))).

(** *** [handleGetStudyDetails] *)

Definition details_query (id : string) : query :=
  [("format", PStr "json"); ("query.term", PStr id); ("filter.ids", PStr id);
   ("pageSize", PNum 1)].

Definition handleGetStudyDetails (nctId_arg : option string)
    : M (tool_result detailed) :=
  match nctId_arg with
  | Some id =>
      if Nct.nct_ok (Some id) then
        catch_axios
          (r <- http_get (details_query id) ;;
           match studies r with
           | [] => ret (ErrorText ("No study found with NCT ID: " ++ id))
           | s :: _ => ret (JsonText (formatDetailedStudy s))
           end)
          (fun e =>
             match response_status e with
             | Some 404 => ret (ErrorText ("Study not found: " ++ id))
             | _ => ret (ErrorText (api_error_text e))
             end)
      else throw (McpError InvalidParams invalid_nct_message)
  | None => throw (McpError InvalidParams invalid_nct_message)
  end.

(** *** [handleGetRecruitingStudies] *)

Record recruiting_args := {
  ra_condition : option string;
  ra_location : option string;
  ra_ageGroup : option string;
  ra_pageSize : option Z
}.

Definition recruiting_params (a : recruiting_args) : query :=
  let q := set_param "filter.overallStatus" (PStr "RECRUITING")
             (base_params (ra_pageSize a)) in
  let q := set_if_str "query.cond" (ra_condition a) q in
  let q := set_if_str "query.locn" (ra_location a) q in
  set_if_str "filter.stdAge" (ra_ageGroup a) q.

Record recruiting_entry := {
  re_summary : summary;
  re_eligibility : elig_block;
  re_locations : list location
}.

Record recruiting_output := {
  ro_criteria : recruiting_args;
  ro_totalCount : Z;
  ro_resultsShown : nat;
  ro_studies : list recruiting_entry
}.

Definition handleGetRecruitingStudies (a : recruiting_args)
    : M (tool_result recruiting_output) :=
  let params := recruiting_params a in
  catch_axios
    (r <- http_get params ;;
     let results :=
       map (fun s => {| re_summary := formatStudySummary s;
                        re_eligibility := eligibility_block s;
                        re_locations :=
                          match study_locations s with
                          | Some l => Js.slice0 2 l | None => [] end |})
           (studies r) in
     ret (JsonText {| ro_criteria := a;
                      ro_totalCount := reported_total r;
                      ro_resultsShown := length results;
                      ro_studies := results |}))
    (fun e => ret (ErrorText (api_error_text e))).

(** The entries of [get_pediatric_studies]: a recruiting entry plus the
    full [conditions] list. *)
Record recruiting_entry_with_conditions := {
  rc_entry : recruiting_entry;
  rc_conditions : list string
}.

(** *** [handleSearchByEligibilityCriteria] *)

Record elig_args := {
  ea_minAge : option string;
  ea_maxAge : option string;
  ea_sex : option string;
  ea_healthyVolunteers : option bool;
  ea_condition : option string;
  ea_exclusionKeywords : option string;
  ea_inclusionKeywords : option string;
  ea_pageSize : option Z
}.

Definition eligibility_params (a : elig_args) : query :=
  let q := base_params (ea_pageSize a) in
  let q := set_if_str "filter.minimumAge" (ea_minAge a) q in
  let q := set_if_str "filter.maximumAge" (ea_maxAge a) q in
  let q := set_if_str "filter.sex" (ea_sex a) q in
  let q := match ea_healthyVolunteers a with
           | Some b => set_param "filter.healthyVolunteers" (PBool b) q
           | None => q
           end in
  let q := set_if_str "query.cond" (ea_condition a) q in
  set_if_str "query.eligibility" (ea_inclusionKeywords a) q.

Record elig_entry := { ee_summary : summary; ee_eligibility : elig_preview }.

Record elig_output := {
  eo_criteria : elig_args;
  eo_totalCount : Z;
  eo_resultsShown : nat;
  eo_studies : list elig_entry
}.

Definition handleSearchByEligibilityCriteria (a : elig_args)
    : M (tool_result elig_output) :=
  let params := eligibility_params a in
  catch_axios
    (r <- http_get params ;;
     let filteredStudies := exclusion_filter (ea_exclusionKeywords a) (studies r) in
     let results :=
       map (fun s => {| ee_summary := formatStudySummary s;
                        ee_eligibility := eligibility_preview s |})
           filteredStudies in
     ret (JsonText {| eo_criteria := a;
                      eo_totalCount := reported_total r;
                      eo_resultsShown := length results;
                      eo_studies := results |}))
    (fun e => ret (ErrorText (api_error_text e))).

(** *** [handleSearchInternationalStudies] *)

Record intl_args := {
  ia_condition : option string;
  ia_excludeCountry : option string;
  ia_includeCountry : option string;
  ia_minCountries : option Z;
  ia_phase : option string;
  ia_pageSize : option Z
}.

Definition international_params (a : intl_args) : query :=
  let q := base_params (ia_pageSize a) in
  let q := set_if_str "query.cond" (ia_condition a) q in
  let q := set_if_str "filter.phase" (ia_phase a) q in
  set_if_str "query.locn" (ia_includeCountry a) q.

Record intl_details := {
  id_totalCountries : nat;
  id_countries : list string;
  id_totalLocations : nat;
  id_sampleLocations : list location
}.

Record intl_entry := { ie_summary : summary; ie_details : intl_details }.

Record intl_output := {
  io_criteria : intl_args;
  io_totalCount : Z;
  io_resultsShown : nat;
  io_studies : list intl_entry
}.

Definition international_entry (s : study) : intl_entry :=
  let locs := location_list s in
  let countries := country_set s in
  {| ie_summary := formatStudySummary s;
     ie_details := {| id_totalCountries := length countries;
                      id_countries := countries;
                      id_totalLocations := length locs;
                      id_sampleLocations := Js.slice0 3 locs |} |}.

Definition handleSearchInternationalStudies (a : intl_args)
    : M (tool_result intl_output) :=
  let params := international_params a in
  catch_axios
    (r <- http_get params ;;
     let filteredStudies :=
       filter (international_keep (ia_minCountries a) (ia_excludeCountry a))
              (studies r) in
     let results := map international_entry filteredStudies in
     ret (JsonText {| io_criteria := a;
                      io_totalCount := reported_total r;
                      io_resultsShown := length results;
                      io_studies := results |}))
    (fun e => ret (ErrorText (api_error_text e))).

(** *** [handleGetSimilarStudies] *)

Record similar_args := {
  sim_nctId : option string;
  sim_similarityType : option string;
  sim_pageSize : option Z
}.

Definition reference_query (id : string) : query :=
  [("format", PStr "json"); ("query.term", PStr id); ("pageSize", PNum 1)].

(** [conditionsModule?.conditions?.[0]] *)
Definition first_condition (s : study) : option string :=
  match study_conditions s with Some (c :: _) => Some c | _ => None end.

(** [designModule?.phases?.[0]] *)
Definition first_phase (s : study) : option string :=
  match study_phases s with Some (p :: _) => Some p | _ => None end.

(** The [searchParams] built by the [switch (similarityType)]. *)
Definition similarity_params (similarityType : string) (ref : study)
    (pageSize : option Z) : query :=
  let q := base_params pageSize in
  if String.eqb similarityType "CONDITION" then
    set_if_str "query.cond" (first_condition ref) q
  else if String.eqb similarityType "SPONSOR" then
    set_if_str "query.spons" (study_sponsor_name ref) q
  else if String.eqb similarityType "PHASE" then
    set_if_str "filter.phase" (first_phase ref) q
  else q.

Record similar_output := {
  sm_reference_nctId : string;
  sm_reference_title : string;
  sm_similarityType : string;
  sm_totalCount : Z;
  sm_resultsShown : nat;
  sm_similarStudies : list summary
}.

Definition handleGetSimilarStudies (a : similar_args)
    : M (tool_result similar_output) :=
  match sim_nctId a with
  | Some id =>
      if Nct.nct_ok (Some id) then
        catch_axios
          (referenceResponse <- http_get (reference_query id) ;;
           match studies referenceResponse with
           | [] => ret (ErrorText ("Reference study not found: " ++ id))
           | referenceStudy :: _ =>
               let similarityType :=
                 Js.or_opt_str (sim_similarityType a) "CONDITION" in
               r <- http_get (similarity_params similarityType referenceStudy
                                                (sim_pageSize a)) ;;
               let results :=
                 map formatStudySummary
                   (filter (fun s => negb (String.eqb (nctId (identification s)) id))
                           (studies r)) in
               ret (JsonText {| sm_reference_nctId := id;
                                sm_reference_title :=
                                  briefTitle (identification referenceStudy);
                                sm_similarityType := similarityType;
                                sm_totalCount := reported_total r;
                                sm_resultsShown := length results;
                                sm_similarStudies := results |})
           end)
          (fun e => ret (ErrorText (api_error_text e)))
      else throw (McpError InvalidParams invalid_nct_message)
  | None => throw (McpError InvalidParams invalid_nct_message)
  end.

(** *** The response shape shared by the single-request handlers *)

(** [{ searchCriteria, totalCount, resultsShown, studies }]. *)
Record page (C E : Type) := {
  pg_criteria : C;
  pg_totalCount : Z;
  pg_resultsShown : nat;
  pg_studies : list E
}.
Arguments pg_criteria {C E} p.
Arguments pg_totalCount {C E} p.
Arguments pg_resultsShown {C E} p.
Arguments pg_studies {C E} p.

(** One [GET /studies] with [params], each study mapped with [entry], an
    axios error turned into the [isError] text. *)
Definition search_page {C E} (params : query) (criteria : C) (entry : study -> E)
    : M (tool_result (page C E)) :=
  catch_axios
    (r <- http_get params ;;
     let results := map entry (studies r) in
     ret (JsonText {| pg_criteria := criteria;
                      pg_totalCount := reported_total r;
                      pg_resultsShown := length results;
                      pg_studies := results |}))
    (fun e => ret (ErrorText (api_error_text e))).

(** [if (!args?.x) throw new McpError(ErrorCode.InvalidParams, msg);]
    followed by the rest of the handler on the present value. *)
Definition require_arg {A} (x : option string) (msg : string) (k : string -> M A) : M A :=
  match x with
  | Some v => if Js.truthy_str x then k v else throw (McpError InvalidParams msg)
  | None => throw (McpError InvalidParams msg)
  end.

(** *** [handleSearchByLocation] *)

Record location_args := {
  la_country : option string;
  la_state : option string;
  la_city : option string;
  la_facilityName : option string;
  la_distance : option Z;
  la_pageSize : option Z
}.

(** [locationQuery += (locationQuery ? ', ' : '') + seg] when [seg] is truthy. *)
Definition append_segment (lq : string) (seg : option string) : string :=
  match seg with
  | Some v => if Js.truthy_str seg
              then (lq ++ ((if String.eqb lq "" then "" else ", ") ++ v))%string
              else lq
  | None => lq
  end.

Definition location_query (a : location_args) : string :=
  let lq := "" in
  let lq := match la_country a with
            | Some c => if Js.truthy_str (la_country a) then (lq ++ c)%string else lq
            | None => lq
            end in
  let lq := append_segment lq (la_state a) in
  let lq := append_segment lq (la_city a) in
  append_segment lq (la_facilityName a).

Definition location_params (a : location_args) : query :=
  let lq := location_query a in
  let q := base_params (la_pageSize a) in
  let q := if Js.truthy_str (Some lq) then set_param "query.locn" (PStr lq) q else q in
  match la_distance a with
  | Some d => if Js.truthy_num (la_distance a) && Js.truthy_str (la_city a)
              then set_param "filter.distance" (PNum d) q else q
  | None => q
  end.

Record location_entry := { le_summary : summary; le_locations : list location }.

Definition handleSearchByLocation (a : location_args)
    : M (tool_result (page (string * option Z) location_entry)) :=
  search_page (location_params a) (location_query a, la_distance a)
    (fun s => {| le_summary := formatStudySummary s;
                 le_locations := match study_locations s with
                                 | Some l => Js.slice0 3 l | None => [] end |}).

(** *** [handleSearchByCondition] *)

Record condition_args := {
  ca_condition : option string;
  ca_phase : option string;
  ca_recruitmentStatus : option string;
  ca_pageSize : option Z
}.

Definition condition_params (a : condition_args) (c : string) : query :=
  let q := base_params (ca_pageSize a) ++ [("query.cond", PStr c)] in
  let q := set_if_str "filter.phase" (ca_phase a) q in
  set_if_str "filter.overallStatus" (ca_recruitmentStatus a) q.

Record condition_entry := {
  ce_summary : summary;
  ce_conditions : list string;
  ce_eligibility : elig_block
}.

Definition handleSearchByCondition (a : condition_args)
    : M (tool_result (page condition_args condition_entry)) :=
  require_arg (ca_condition a) "Condition parameter is required" (fun c =>
    search_page (condition_params a c) a
      (fun s => {| ce_summary := formatStudySummary s;
                   ce_conditions := match study_conditions s with
                                    | Some cs => cs | None => [] end;
                   ce_eligibility := eligibility_block s |})).

(** *** [handleGetTrialStatistics], [calculateStatistics], [groupByField] *)

(** The names an object literal inherits from [Object.prototype]. *)
Definition proto_names : list string :=
  ["__proto__"; "constructor"; "hasOwnProperty"; "isPrototypeOf";
   "propertyIsEnumerable"; "toLocaleString"; "toString"; "valueOf";
   "__defineGetter__"; "__defineSetter__"; "__lookupGetter__"; "__lookupSetter__"].

(** The grouping key of [groupByField]; every [value] it computes is a
    string, so [Array.isArray(value) ? value[0] : value] is [value]. *)
Definition group_key (field : string) (s : study) : string :=
  if String.eqb field "status" then overallStatus (status s)
  else if String.eqb field "phase" then Js.or_opt_str (first_phase s) "Not specified"
  else if String.eqb field "studyType" then
    Js.or_opt_str (option_map studyType (design s)) "Unknown"
  else if String.eqb field "condition" then
    Js.or_opt_str (first_condition s) "Not specified"
  else if String.eqb field "sponsor" then
    Js.or_opt_str (study_sponsor_name s) "Not specified"
  else "Unknown".

(** A value held by [groups]: a count, or the text that [(x || 0) + 1]
    makes of an inherited member that is not a number. *)
Inductive gval := GNum (n : Z) | GStr (s : string).

(** The [groups] object as its own properties, in the order they were
    created.  ([JSON.stringify] lists integer-like keys first, in
    ascending order, and the others in this order; the development
    compares groups by lookup only, never by their order.) *)
Definition groups := list (string * gval).

Fixpoint group_get (k : string) (g : groups) : option gval :=
  match g with
  | [] => None
  | (k', v) :: g' => if String.eqb k k' then Some v else group_get k g'
  end.

Fixpoint group_set (k : string) (v : gval) (g : groups) : groups :=
  match g with
  | [] => [(k, v)]
  | (k', v') :: g' => if String.eqb k k' then (k, v) :: g' else (k', v') :: group_set k v g'
  end.

(** What [groups[key]] reads. *)
Inductive group_read_result :=
  | ROwn (v : gval)              (* an own property *)
  | RProtoObject                 (* [__proto__]: [Object.prototype] itself *)
  | RNativeFn (name : string)    (* an inherited method of [Object.prototype] *)
  | RUndefined.

(** The function name of an inherited member: [constructor] is [Object]. *)
Definition native_name (k : string) : string :=
  if String.eqb k "constructor" then "Object" else k.

Definition group_read (g : groups) (k : string) : group_read_result :=
  match group_get k g with
  | Some v => ROwn v
  | None =>
      if String.eqb k "__proto__" then RProtoObject
      else if existsb (String.eqb k) proto_names then RNativeFn (native_name k)
      else RUndefined
  end.

(** [(groups[key] || 0) + 1]: a number adds one; an object or a function
    is turned into its text and ["1"] appended. *)
Definition incremented (r : group_read_result) : gval :=
  match r with
  | ROwn (GNum n) => GNum ((if Z.eqb n 0 then 0 else n) + 1)
  | ROwn (GStr t) => if String.eqb t "" then GNum 1 else GStr (t ++ "1")
  | RProtoObject => GStr "[object Object]1"
  | RNativeFn name => GStr ("function " ++ name ++ "() { [native code] }1")
  | RUndefined => GNum 1
  end.

(** [groups[key] = v]: the [__proto__] setter ignores a value that is not
    an object; any other key gets (or overwrites) an own property. *)
Definition group_assign (k : string) (v : gval) (g : groups) : groups :=
  if String.eqb k "__proto__" then g else group_set k v g.

(** [groups[key] = (groups[key] || 0) + 1] *)
Definition bump (g : groups) (key : string) : groups :=
  group_assign key (incremented (group_read g key)) g.

Definition groupByField (l : list study) (field : string) : groups :=
  fold_left (fun g s => bump g (group_key field s)) l [].

Inductive statistics :=
  | StatsAll (totalStudies : nat) (byStatus byPhase byStudyType : groups)
  | StatsBy (g : groups).

Definition calculateStatistics (l : list study) (groupBy : option string) : statistics :=
  match groupBy with
  | Some f => if Js.truthy_str groupBy then StatsBy (groupByField l f)
              else StatsAll (length l) (groupByField l "status")
                     (groupByField l "phase") (groupByField l "studyType")
  | None => StatsAll (length l) (groupByField l "status")
              (groupByField l "phase") (groupByField l "studyType")
  end.

Record stat_filters := {
  sf_condition : option string;
  sf_phase : option string;
  sf_status : option string
}.

Record statistics_args := {
  st_groupBy : option string;
  st_filters : option stat_filters
}.

Definition statistics_params (a : statistics_args) : query :=
  let q := [("format", PStr "json"); ("pageSize", PNum 100)] in
  let f := st_filters a in
  let q := set_if_str "query.cond" (match f with Some x => sf_condition x | None => None end) q in
  let q := set_if_str "filter.phase" (match f with Some x => sf_phase x | None => None end) q in
  set_if_str "filter.overallStatus" (match f with Some x => sf_status x | None => None end) q.

Record statistics_output := {
  sto_totalStudies : Z;
  sto_analyzedStudies : nat;
  sto_groupBy : string;
  sto_filters : option stat_filters;
  sto_statistics : statistics
}.

Definition handleGetTrialStatistics (a : statistics_args)
    : M (tool_result statistics_output) :=
  catch_axios
    (r <- http_get (statistics_params a) ;;
     ret (JsonText {| sto_totalStudies := reported_total r;
                      sto_analyzedStudies := length (studies r);
                      sto_groupBy := Js.or_opt_str (st_groupBy a) "none";
                      sto_filters := st_filters a;
                      sto_statistics := calculateStatistics (studies r) (st_groupBy a) |}))
    (fun e => ret (ErrorText (api_error_text e))).

(** *** [handleSearchBySponsor] and [handleSearchByIntervention] *)

Record sponsor_args := {
  spa_sponsor : option string;
  spa_sponsorType : option string;
  spa_pageSize : option Z
}.

Definition sponsor_params (a : sponsor_args) (sp : string) : query :=
  set_if_str "filter.leadSponsorClass" (spa_sponsorType a)
    (base_params (spa_pageSize a) ++ [("query.spons", PStr sp)]).

Definition handleSearchBySponsor (a : sponsor_args)
    : M (tool_result (page sponsor_args (summary * option leadSponsor))) :=
  require_arg (spa_sponsor a) "Sponsor parameter is required" (fun sp =>
    search_page (sponsor_params a sp) a
      (fun s => (formatStudySummary s, study_leadSponsor s))).

Record intervention_args := {
  iva_intervention : option string;
  iva_interventionType : option string;
  iva_phase : option string;
  iva_pageSize : option Z
}.

Definition intervention_params (a : intervention_args) (iv : string) : query :=
  let q := base_params (iva_pageSize a) ++ [("query.intr", PStr iv)] in
  let q := set_if_str "filter.interventionType" (iva_interventionType a) q in
  set_if_str "filter.phase" (iva_phase a) q.

Definition handleSearchByIntervention (a : intervention_args)
    : M (tool_result (page intervention_args summary)) :=
  require_arg (iva_intervention a) "Intervention parameter is required" (fun iv =>
    search_page (intervention_params a iv) a formatStudySummary).

(** *** [handleSearchByDateRange] *)

Record date_range_args := {
  dra_startDateFrom : option string;
  dra_startDateTo : option string;
  dra_completionDateFrom : option string;
  dra_completionDateTo : option string;
  dra_condition : option string;
  dra_pageSize : option Z
}.

Definition date_range_params (a : date_range_args) : query :=
  let q := base_params (dra_pageSize a) in
  let q := set_if_str "filter.studyStartDateFrom" (dra_startDateFrom a) q in
  let q := set_if_str "filter.studyStartDateTo" (dra_startDateTo a) q in
  let q := set_if_str "filter.primaryCompletionDateFrom" (dra_completionDateFrom a) q in
  let q := set_if_str "filter.primaryCompletionDateTo" (dra_completionDateTo a) q in
  set_if_str "query.cond" (dra_condition a) q.

(** [{ ...summary, dates: { startDate, primaryCompletionDate } }] *)
Definition handleSearchByDateRange (a : date_range_args)
    : M (tool_result (page date_range_args (summary * (option string * option string)))) :=
  search_page (date_range_params a) a
    (fun s => (formatStudySummary s,
               (option_map date (startDateStruct (status s)),
                option_map date (primaryCompletionDateStruct (status s))))).

(** *** [handleGetStudiesWithResults] *)

Record results_args := {
  rsa_condition : option string;
  rsa_intervention : option string;
  rsa_completedAfter : option string;
  rsa_pageSize : option Z
}.

Definition results_params (a : results_args) : query :=
  let q := base_params (rsa_pageSize a)
             ++ [("filter.overallStatus", PStr "COMPLETED"); ("filter.hasResults", PBool true)] in
  let q := set_if_str "query.cond" (rsa_condition a) q in
  let q := set_if_str "query.intr" (rsa_intervention a) q in
  set_if_str "filter.primaryCompletionDateFrom" (rsa_completedAfter a) q.

(** [{ ...summary, completionDate, hasResults: true }] *)
Definition handleGetStudiesWithResults (a : results_args)
    : M (tool_result (page results_args (summary * option string * bool))) :=
  search_page (results_params a) a
    (fun s => (formatStudySummary s,
               option_map date (primaryCompletionDateStruct (status s)), true)).

(** *** [handleSearchRareDiseases] *)

Record rare_args := {
  rda_rareDisease : option string;
  rda_recruitmentStatus : option string;
  rda_pageSize : option Z
}.

Definition rare_params (a : rare_args) (rd : string) : query :=
  let q := base_params (rda_pageSize a) ++ [("query.cond", PStr rd)] in
  let q := set_if_str "filter.overallStatus" (rda_recruitmentStatus a) q in
  set_param "query.term" (PStr (rd ++ " OR orphan OR rare")) q.

(** The [eligibility] block of [search_rare_diseases]: sex and ages only. *)
Definition rare_eligibility (s : study) : string * string * string :=
  let b := eligibility_block s in (eb_sex b, eb_minimumAge b, eb_maximumAge b).

Definition handleSearchRareDiseases (a : rare_args)
    : M (tool_result (page rare_args (summary * list string * (string * string * string)))) :=
  require_arg (rda_rareDisease a) "Rare disease parameter is required" (fun rd =>
    search_page (rare_params a rd) a
      (fun s => (formatStudySummary s,
                 match study_conditions s with Some cs => cs | None => [] end,
                 rare_eligibility s))).

(** *** [handleGetPediatricStudies] *)

Record pediatric_args := {
  pa_condition : option string;
  pa_ageRange : option string;
  pa_recruitmentStatus : option string;
  pa_pageSize : option Z
}.

(** The [switch (args.ageRange)] table: [(minimumAge, maximumAge)]. *)
Definition age_range_bounds (r : string) : option (string * string) :=
  if String.eqb r "INFANT" then Some ("0 Years", "2 Years")
  else if String.eqb r "CHILD" then Some ("2 Years", "12 Years")
  else if String.eqb r "ADOLESCENT" then Some ("12 Years", "18 Years")
  else None.

Definition pediatric_params (a : pediatric_args) : query :=
  let q := set_param "filter.stdAge" (PStr "CHILD") (base_params (pa_pageSize a)) in
  let q := set_if_str "query.cond" (pa_condition a) q in
  let q := match pa_ageRange a with
           | Some r =>
               if Js.truthy_str (pa_ageRange a) then
                 match age_range_bounds r with
                 | Some (lo, hi) =>
                     set_param "filter.maximumAge" (PStr hi)
                       (set_param "filter.minimumAge" (PStr lo) q)
                 | None => q
                 end
               else q
           | None => q
           end in
  set_if_str "filter.overallStatus" (pa_recruitmentStatus a) q.

Definition handleGetPediatricStudies (a : pediatric_args)
    : M (tool_result (page pediatric_args recruiting_entry_with_conditions)) :=
  search_page (pediatric_params a) a
    (fun s => {| rc_entry := {| re_summary := formatStudySummary s;
                                re_eligibility := eligibility_block s;
                                re_locations := match study_locations s with
                                                | Some l => Js.slice0 2 l | None => [] end |};
                 rc_conditions := match study_conditions s with
                                  | Some cs => cs | None => [] end |}).

(** *** [handleSearchByPrimaryOutcome] *)

Record outcome_args := {
  oa_outcome : option string;
  oa_condition : option string;
  oa_phase : option string;
  oa_pageSize : option Z
}.

Definition outcome_params (a : outcome_args) (o : string) : query :=
  let q := base_params (oa_pageSize a) ++ [("query.outc", PStr o)] in
  let q := set_if_str "query.cond" (oa_condition a) q in
  set_if_str "filter.phase" (oa_phase a) q.

Definition handleSearchByPrimaryOutcome (a : outcome_args)
    : M (tool_result (page outcome_args summary)) :=
  require_arg (oa_outcome a) "Outcome parameter is required" (fun o =>
    search_page (outcome_params a o) a formatStudySummary).

(** *** [handleGetStudyTimeline]

    Two values read the clock and are parameters here: [futureDate] is
    [futureDate.toISOString().split('T')[0]] for the moment of the call
    plus 30 days, and [days_since d] is
    [Math.floor((new Date().getTime() - new Date(d).getTime()) / 86400000)],
    [None] when that is [NaN] (which [JSON.stringify] writes as [null]). *)

Record timeline_args := {
  ta_condition : option string;
  ta_sponsor : option string;
  ta_phase : option string;
  ta_timelineType : option string;
  ta_pageSize : option Z
}.

Definition timeline_params (futureDate : string) (a : timeline_args) : query :=
  let q := base_params (ta_pageSize a) in
  let q := set_if_str "query.cond" (ta_condition a) q in
  let q := set_if_str "query.spons" (ta_sponsor a) q in
  let q := set_if_str "filter.phase" (ta_phase a) q in
  let timelineType := Js.or_opt_str (ta_timelineType a) "CURRENT" in
  if String.eqb timelineType "CURRENT" then
    set_param "filter.overallStatus"
      (PStr "RECRUITING,NOT_YET_RECRUITING,ACTIVE_NOT_RECRUITING") q
  else if String.eqb timelineType "COMPLETED" then
    set_param "filter.overallStatus" (PStr "COMPLETED") q
  else if String.eqb timelineType "UPCOMING" then
    set_param "filter.studyStartDateFrom" (PStr futureDate)
      (set_param "filter.overallStatus" (PStr "NOT_YET_RECRUITING") q)
  else q.

(** [searchCriteria] of [get_study_timeline]. *)
Record timeline_criteria := {
  tc_condition : option string;
  tc_sponsor : option string;
  tc_phase : option string;
  tc_timelineType : string
}.

(** The [timeline] block of each result. *)
Record timeline_info := {
  tl_startDate : option string;
  tl_primaryCompletionDate : option string;
  tl_status : string;
  tl_daysFromStart : option Z
}.

Definition timeline_entry (days_since : string -> option Z) (s : study)
    : summary * timeline_info :=
  (formatStudySummary s,
   {| tl_startDate := option_map date (startDateStruct (status s));
      tl_primaryCompletionDate := option_map date (primaryCompletionDateStruct (status s));
      tl_status := overallStatus (status s);
      tl_daysFromStart :=
        match option_map date (startDateStruct (status s)) with
        | Some d => if String.eqb d "" then None else days_since d
        | None => None
        end |}).

Definition handleGetStudyTimeline (futureDate : string) (days_since : string -> option Z)
    (a : timeline_args)
    : M (tool_result (page timeline_criteria (summary * timeline_info))) :=
  search_page (timeline_params futureDate a)
    {| tc_condition := ta_condition a; tc_sponsor := ta_sponsor a; tc_phase := ta_phase a;
       tc_timelineType := Js.or_opt_str (ta_timelineType a) "CURRENT" |}
    (timeline_entry days_since).

End Handlers.

Arguments pg_criteria {C E} p.
Arguments pg_totalCount {C E} p.
Arguments pg_resultsShown {C E} p.
Arguments pg_studies {C E} p.

(** Running a handler from an empty query log. *)
Definition run {A} (m : M A) : list query * (exn + A) := m [].

(* ------------------------------------------------------------------ *)
(** ** Sample records, for evaluating the handlers on concrete inputs   *)
(* ------------------------------------------------------------------ *)

Module Sample.

Definition loc_in (c : string) : location :=
  {| facility := "Site"; city := "City"; loc_state := None; country := c |}.

(** A study with the given identifier, location countries and eligibility
    criteria text; every other optional module is absent. *)
Definition mk_study (id : string) (countries : list string) (crit : option string)
    : study := {|
  identification := {| nctId := id; briefTitle := "Title"; officialTitle := None |};
  status := {| overallStatus := "RECRUITING"; startDateStruct := None;
               primaryCompletionDateStruct := None |};
  sponsorCollaborators := None;
  conditionsMod := None;
  design := None;
  contactsLocations := Some {| locations := Some (map loc_in countries) |};
  eligibility :=
    match crit with
    | Some t => Some {| eligibilityCriteria := Some t; healthyVolunteers := false;
                        sex := "ALL"; minimumAge := None; maximumAge := None |}
    | None => None
    end
|}.

Definition s1 : study := mk_study "NCT00000001" ["France"; "Spain"] (Some "Adults with diabetes").
Definition s2 : study := mk_study "NCT00000002" ["Chile"] (Some "Pregnant women excluded").
Definition s3 : study := mk_study "NCT00000003" ["Peru"; "Chile"; "Peru"; "Brazil"] None.

Definition response : StudySearchResponse := {| studies := [s1; s2; s3]; totalCount := 450 |}.

(** A registry answering every query with [response]. *)
Definition registry (q : query) : upstream_reply := Reply response.

Definition elig_args_with (kw : option string) : elig_args := {|
  ea_minAge := None; ea_maxAge := None; ea_sex := None;
  ea_healthyVolunteers := None; ea_condition := Some "diabetes";
  ea_exclusionKeywords := kw; ea_inclusionKeywords := None; ea_pageSize := None
|}.

Definition intl_args_with (minCountries : option Z) (excludeCountry : option string)
    : intl_args := {|
  ia_condition := None; ia_excludeCountry := excludeCountry; ia_includeCountry := None;
  ia_minCountries := minCountries; ia_phase := None; ia_pageSize := None
|}.

Definition similar_args_with (id : string) (ty : option string) : similar_args :=
  {| sim_nctId := Some id; sim_similarityType := ty; sim_pageSize := None |}.

(** A registry that knows no study under the reference lookup. *)
Definition empty_registry (q : query) : upstream_reply :=
  Reply {| studies := []; totalCount := 0 |}.

Definition search_args_page (ps : option Z) : search_args := {|
  sa_query := None; sa_condition := Some "diabetes"; sa_intervention := None;
  sa_location := None; sa_phase := Some "PHASE3"; sa_status := None; sa_sex := None;
  sa_age := None; sa_pageSize := ps
|}.

Definition recruiting_args_page (ps : option Z) : recruiting_args :=
  {| ra_condition := Some "asthma"; ra_location := None; ra_ageGroup := None;
     ra_pageSize := ps |}.

(** Arguments for the other tools, with a given [pageSize]; some optional
    texts are empty, which the handlers treat as absent. *)
Definition location_args_page (ps : option Z) : location_args :=
  {| la_country := Some "France"; la_state := None; la_city := Some "";
     la_facilityName := None; la_distance := Some 50; la_pageSize := ps |}.

Definition condition_args_page (ps : option Z) : condition_args :=
  {| ca_condition := Some "asthma"; ca_phase := Some ""; ca_recruitmentStatus := None;
     ca_pageSize := ps |}.

Definition statistics_args_by (g : option string) : statistics_args :=
  {| st_groupBy := g;
     st_filters := Some {| sf_condition := Some "asthma"; sf_phase := Some "";
                           sf_status := None |} |}.

Definition sponsor_args_page (ps : option Z) : sponsor_args :=
  {| spa_sponsor := Some "Pfizer"; spa_sponsorType := Some ""; spa_pageSize := ps |}.

Definition intervention_args_page (ps : option Z) : intervention_args :=
  {| iva_intervention := Some "aspirin"; iva_interventionType := None;
     iva_phase := Some ""; iva_pageSize := ps |}.

Definition date_range_args_page (ps : option Z) : date_range_args :=
  {| dra_startDateFrom := Some "2020-01-01"; dra_startDateTo := Some "";
     dra_completionDateFrom := None; dra_completionDateTo := None;
     dra_condition := Some "asthma"; dra_pageSize := ps |}.

Definition results_args_page (ps : option Z) : results_args :=
  {| rsa_condition := Some "asthma"; rsa_intervention := Some "";
     rsa_completedAfter := None; rsa_pageSize := ps |}.

Definition rare_args_page (ps : option Z) : rare_args :=
  {| rda_rareDisease := Some "Fabry disease"; rda_recruitmentStatus := Some "";
     rda_pageSize := ps |}.

Definition pediatric_args_page (ps : option Z) : pediatric_args :=
  {| pa_condition := Some "asthma"; pa_ageRange := Some "CHILD";
     pa_recruitmentStatus := Some ""; pa_pageSize := ps |}.

Definition outcome_args_page (ps : option Z) : outcome_args :=
  {| oa_outcome := Some "overall survival"; oa_condition := Some ""; oa_phase := None;
     oa_pageSize := ps |}.

Definition timeline_args_page (ps : option Z) : timeline_args :=
  {| ta_condition := Some "asthma"; ta_sponsor := Some ""; ta_phase := None;
     ta_timelineType := Some "UPCOMING"; ta_pageSize := ps |}.

(** [futureDate] and [daysFromStart] for a call on 2026-10-18. *)
Definition future_date : string := "2026-11-17".

Definition days_since (d : string) : option Z :=
  if String.eqb d "2026-10-18" then Some 0 else None.

End Sample.

(* ------------------------------------------------------------------ *)
(** ** Specification vocabulary                                       *)
(* ------------------------------------------------------------------ *)

(** The numeric value of a group entry; a text counts as zero. *)
Definition gnum (v : gval) : Z := match v with GNum n => n | GStr _ => 0 end.

(** The sum of the counts of a grouping. *)
Definition group_total (g : groups) : Z := fold_right (fun kv acc => gnum (snd kv) + acc) 0 g.

Definition opt_val (o : option gval) : Z := match o with Some v => gnum v | None => 0 end.

(** Every key that is not an [Object.prototype] member name holds a
    positive count. *)
Definition counts_positive (g : groups) : Prop :=
  forall k v, ~ In k proto_names -> group_get k g = Some v -> exists n, v = GNum n /\ 0 < n.

(** [count k l]: how many of the keys in [l] equal [k]. *)
Definition count_key (k : string) (keys : list string) : nat :=
  length (filter (String.eqb k) keys).

(** The non-empty segments among the arguments, in order. *)
Definition present_segments (segs : list (option string)) : list string :=
  flat_map (fun o => match o with
                     | Some v => if String.eqb v "" then [] else [v]
                     | None => [] end) segs.

(** Joining segments onto an accumulated text, as [append_segment] does. *)
Fixpoint join_onto (lq : string) (xs : list string) : string :=
  match xs with
  | [] => lq
  | x :: xs' => join_onto (if String.eqb lq "" then x else (lq ++ (", " ++ x))%string) xs'
  end.

(** A run whose outcome is not an axios error: an [McpError], or a value. *)
Definition no_axios_escape {A} (r : list query * (exn + A)) : Prop :=
  match snd r with inl (AxiosError _) => False | _ => True end.

(** [whole] starts with [part]. *)
Definition is_prefix {A} (part whole : list A) : Prop := exists rest, whole = part ++ rest.

(** No parameter of the query is the empty string. *)
Definition no_empty_values (q : query) : Prop := forall k, ~ In (k, PStr "") q.

(** Every request [m] adds to the log satisfies [P]. *)
Definition sends_only {A} (P : query -> Prop) (m : M A) : Prop :=
  forall log, Forall P log -> Forall P (fst (m log)).

(* ================================================================== *)
(** * Properties                                                        *)
(* ================================================================== *)

(** Order-preserving selection: [l1] is [l2] with some elements dropped. *)
Inductive subseq {A : Type} : list A -> list A -> Prop :=
  | subseq_nil : subseq [] []
  | subseq_keep x l1 l2 : subseq l1 l2 -> subseq (x :: l1) (x :: l2)
  | subseq_drop x l1 l2 : subseq l1 l2 -> subseq l1 (x :: l2).

Create HintDb clinical.
#[export] Hint Constructors subseq : clinical.

(* ------------------------------------------------------------------ *)
(** ** Generic facts                                                    *)
(* ------------------------------------------------------------------ *)

Lemma filter_idem {A} (f : A -> bool) (l : list A) :
  filter f (filter f l) = filter f l.
Proof.
  induction l as [|x l IH]; simpl; [reflexivity|].
  case_eq (f x); intro Hx; simpl; [rewrite Hx, IH|]; auto.
Qed.

Lemma filter_subseq {A} (f : A -> bool) (l : list A) : subseq (filter f l) l.
Proof.
  induction l as [|x l IH]; simpl; [constructor|].
  destruct (f x); auto with clinical.
Qed.

Lemma filter_all_false {A} (f : A -> bool) (l : list A) :
  (forall x, f x = false) -> filter f l = [].
Proof.
  intro H; induction l as [|x l IH]; simpl; [reflexivity|].
  rewrite H; exact IH.
Qed.

Lemma reported_total_eq (r : StudySearchResponse) : reported_total r = totalCount r.
Proof.
  unfold reported_total, Js.or_opt_num.
  destruct (Z.eqb_spec (totalCount r) 0); congruence.
Qed.

(** Every string contains the empty string. *)
Lemma includes_empty (h : string) : Str.includes h "" = true.
Proof. destruct h; reflexivity. Qed.

(** [toLowerCase] leaves the whitespace characters alone. *)
Lemma lower_char_ws (c : ascii) : Str.is_ws c = true -> Str.lower_char c = c.
Proof.
  destruct c as [[] [] [] [] [] [] [] []]; vm_compute; congruence.
Qed.

Lemma toLowerCase_snoc (p : string) (c : ascii) :
  Str.toLowerCase (p ++ String c "")%string
  = (Str.toLowerCase p ++ String (Str.lower_char c) "")%string.
Proof. induction p as [|d p IH]; simpl; [reflexivity|now rewrite IH]. Qed.

(** A whitespace character ending the input leaves an empty last piece. *)
Lemma split_ws_aux_trailing (c : ascii) (s cur : string) (b : bool) :
  Str.is_ws c = true -> (b = true -> cur = "") ->
  In "" (Str.split_ws_aux (s ++ String c "")%string cur b).
Proof.
  intros Hc. revert cur b.
  induction s as [|d s IH]; intros cur b Hinv; simpl.
  - rewrite Hc. destruct b; simpl.
    + rewrite (Hinv eq_refl); auto.
    + auto.
  - destruct (Str.is_ws d).
    + destruct b.
      * apply IH; auto.
      * right; apply IH; auto.
    + apply IH; discriminate.
Qed.

Lemma split_ws_has_empty (kw : string) :
  ((exists c rest, kw = String c rest /\ Str.is_ws c = true) \/
   (exists init c, kw = (init ++ String c "")%string /\ Str.is_ws c = true)) ->
  In "" (Str.split_ws (Str.toLowerCase kw)).
Proof.
  intros [(c & rest & -> & Hc) | (init & c & -> & Hc)].
  - unfold Str.split_ws; simpl. rewrite lower_char_ws, Hc by exact Hc.
    left; reflexivity.
  - rewrite toLowerCase_snoc, lower_char_ws by exact Hc.
    apply split_ws_aux_trailing; [exact Hc | discriminate].
Qed.

(** Unfolds the monad around a handler run. *)
Ltac unfold_run := unfold run, catch_axios, bind, http_get, ret, throw.

(* ------------------------------------------------------------------ *)
(** ** Eligibility exclusion filtering                                  *)
(* ------------------------------------------------------------------ *)

(** Claim C5: the exclusion-keyword filter of
    [search_by_eligibility_criteria] is idempotent (filtering an already
    filtered list with the same keywords changes nothing) and order
    preserving (the surviving records are a subsequence of the input). *)
Theorem exclusion_filter_idempotent_ordered (kw : option string) (l : list study) :
  exclusion_filter kw (exclusion_filter kw l) = exclusion_filter kw l
  /\ subseq (exclusion_filter kw l) l.
Proof.
  unfold exclusion_filter; destruct kw as [k|].
  - destruct (Js.truthy_str (Some k)).
    + split; [apply filter_idem | apply filter_subseq].
    + split; [reflexivity|].
      induction l; auto with clinical.
  - split; [reflexivity|]. induction l; auto with clinical.
Qed.

(** Claim C4: whatever the exclusion keywords, the [totalCount] reported
    by [search_by_eligibility_criteria] is the [totalCount] of the
    registry's response: the exclusion keywords are not part of the
    upstream query, and the local filtering only changes the study list
    and [resultsShown]. *)
Theorem eligibility_totalCount_unchanged
    (upstream : query -> upstream_reply) (a : elig_args) (r : StudySearchResponse) :
  upstream (eligibility_params a) = Reply r ->
  (forall kw, eligibility_params {| ea_minAge := ea_minAge a; ea_maxAge := ea_maxAge a;
      ea_sex := ea_sex a; ea_healthyVolunteers := ea_healthyVolunteers a;
      ea_condition := ea_condition a; ea_exclusionKeywords := kw;
      ea_inclusionKeywords := ea_inclusionKeywords a;
      ea_pageSize := ea_pageSize a |} = eligibility_params a)
  /\ exists o,
    run (handleSearchByEligibilityCriteria upstream a)
      = ([eligibility_params a], inr (JsonText o))
    /\ eo_totalCount o = totalCount r
    /\ eo_resultsShown o = length (exclusion_filter (ea_exclusionKeywords a) (studies r)).
Proof.
  intro Hup. split; [reflexivity|].
  eexists; split.
  - unfold handleSearchByEligibilityCriteria; unfold_run. rewrite Hup. reflexivity.
  - simpl. split; [apply reported_total_eq|]. apply length_map.
Qed.

Lemma eligibility_totalCount_unchanged_witness :
  Sample.registry (eligibility_params (Sample.elig_args_with (Some "pregnant"))) = Reply Sample.response
  /\ exists o,
    run (handleSearchByEligibilityCriteria Sample.registry
           (Sample.elig_args_with (Some "pregnant")))
      = ([eligibility_params (Sample.elig_args_with (Some "pregnant"))], inr (JsonText o))
    /\ eo_totalCount o = 450
    /\ eo_resultsShown o = 2%nat.
Proof.
  split; [reflexivity|].
  destruct (eligibility_totalCount_unchanged Sample.registry
              (Sample.elig_args_with (Some "pregnant")) Sample.response eq_refl)
    as [_ [o [Hrun [Htot Hshown]]]].
  exists o. split; [exact Hrun|]. split; [exact Htot|].
  rewrite Hshown. vm_compute. reflexivity.
Defined.

(** Claim C9: an exclusion phrase that is non-empty and starts or ends
    with whitespace (in particular a whitespace-only phrase) splits into a
    list containing the empty token; every criteria text contains the empty
    string, so [search_by_eligibility_criteria] drops every record. *)
Theorem exclusion_blank_token_drops_all
    (upstream : query -> upstream_reply) (a : elig_args) (kw : string)
    (r : StudySearchResponse) :
  ea_exclusionKeywords a = Some kw ->
  kw <> "" ->
  ((exists c rest, kw = String c rest /\ Str.is_ws c = true) \/
   (exists init c, kw = (init ++ String c "")%string /\ Str.is_ws c = true)) ->
  upstream (eligibility_params a) = Reply r ->
  exclusion_filter (Some kw) (studies r) = []
  /\ exists o,
    run (handleSearchByEligibilityCriteria upstream a)
      = ([eligibility_params a], inr (JsonText o))
    /\ eo_studies o = [] /\ eo_resultsShown o = 0%nat.
Proof.
  intros Hkw Hne Hws Hup.
  assert (Hf : exclusion_filter (Some kw) (studies r) = []).
  { unfold exclusion_filter, Js.truthy_str.
    destruct (String.eqb_spec kw "") as [E|_]; [contradiction|]. simpl.
    apply filter_all_false. intro s. unfold keeps_study.
    apply negb_false_iff, existsb_exists.
    exists ""; split; [apply split_ws_has_empty, Hws | apply includes_empty]. }
  split; [exact Hf|].
  eexists; split.
  - unfold handleSearchByEligibilityCriteria; unfold_run. rewrite Hup. reflexivity.
  - simpl. rewrite Hkw, Hf. split; reflexivity.
Qed.

Lemma exclusion_blank_token_drops_all_witness :
  exclusion_filter (Some " pregnant") (studies Sample.response) = []
  /\ exists o,
    run (handleSearchByEligibilityCriteria Sample.registry
           (Sample.elig_args_with (Some " pregnant")))
      = ([eligibility_params (Sample.elig_args_with (Some " pregnant"))], inr (JsonText o))
    /\ eo_studies o = [] /\ eo_resultsShown o = 0%nat.
Proof.
  apply (exclusion_blank_token_drops_all Sample.registry
           (Sample.elig_args_with (Some " pregnant")) " pregnant" Sample.response).
  - reflexivity.
  - discriminate.
  - left. exists " "%char, "pregnant". split; reflexivity.
  - reflexivity.
Defined.

(* ------------------------------------------------------------------ *)
(** ** International studies                                            *)
(* ------------------------------------------------------------------ *)

Lemma set_has_In (l : list string) (x : string) : Js.set_has l x = true <-> In x l.
Proof.
  unfold Js.set_has. rewrite existsb_exists. split.
  - intros (y & Hy & E). apply String.eqb_eq in E. subst; exact Hy.
  - intro H. exists x. split; [exact H | apply String.eqb_refl].
Qed.

Lemma set_of_fold (xs acc : list string) :
  NoDup acc ->
  NoDup (fold_left (fun acc x => if existsb (String.eqb x) acc then acc else acc ++ [x]) xs acc)
  /\ forall c, In c (fold_left (fun acc x => if existsb (String.eqb x) acc then acc else acc ++ [x]) xs acc)
              <-> In c acc \/ In c xs.
Proof.
  revert acc. induction xs as [|x xs IH]; intros acc Hnd; simpl.
  - split; [exact Hnd|]. intro c; tauto.
  - fold (Js.set_has acc x).
    case_eq (Js.set_has acc x); intro Hx.
    + apply set_has_In in Hx.
      destruct (IH acc Hnd) as [H1 H2]. split; [exact H1|].
      intro c. rewrite H2. split; [tauto|].
      intros [H|[<-|H]]; auto.
    + assert (Hx' : ~ In x acc) by (rewrite <- set_has_In; congruence).
      assert (Hnd' : NoDup (acc ++ [x])).
      { apply NoDup_app; [exact Hnd | repeat constructor; auto |].
        intros y Hy [<-|[]]. contradiction. }
      destruct (IH _ Hnd') as [H1 H2]. split; [exact H1|].
      intro c. rewrite H2, in_app_iff. simpl. tauto.
Qed.

(** [new Set(xs)] holds the elements of [xs], each once. *)
Lemma set_of_spec (xs : list string) :
  NoDup (Js.set_of xs) /\ forall c, In c (Js.set_of xs) <-> In c xs.
Proof.
  destruct (set_of_fold xs [] (NoDup_nil _)) as [H1 H2].
  split; [exact H1|]. intro c. unfold Js.set_of. rewrite H2. simpl. tauto.
Qed.

(** Two duplicate-free enumerations of one set have the same length. *)
Lemma nodup_same_length (l1 l2 : list string) :
  NoDup l1 -> NoDup l2 -> (forall c, In c l1 <-> In c l2) -> length l1 = length l2.
Proof.
  intros N1 N2 E. apply Nat.le_antisymm; apply NoDup_incl_length; auto;
    intros c Hc; apply E; auto.
Qed.

Lemma international_keep_spec (minC : option Z) (ex : option string) (s : study)
    (cs : list string) :
  ex <> Some "" ->
  NoDup cs -> (forall c, In c cs <-> In c (map country (location_list s))) ->
  international_keep minC ex s = true <->
  (2 <= Z.of_nat (length cs)
   /\ (forall m, minC = Some m -> m <= Z.of_nat (length cs))
   /\ (forall c, ex = Some c -> ~ In c cs)).
Proof.
  intros Hex Hnd Hcs.
  destruct (set_of_spec (map country (location_list s))) as [Hnd' Hin'].
  assert (Hlen : length (country_set s) = length cs).
  { apply nodup_same_length; auto. intro c. rewrite Hin', Hcs. tauto. }
  assert (Hmem : forall c, In c (country_set s) <-> In c cs).
  { intro c. unfold country_set. rewrite Hin', Hcs. tauto. }
  unfold international_keep. rewrite Hlen.
  destruct minC as [m|]; unfold Js.truthy_num.
  - destruct (Z.eqb_spec m 0) as [->|Hm]; simpl.
    + destruct ex as [c|]; unfold Js.truthy_str.
      * destruct (String.eqb_spec c "") as [->|Hc]; [congruence|]. simpl.
        case_eq (Js.set_has (country_set s) c); intro Hh.
        -- apply set_has_In, Hmem in Hh. split; [discriminate|].
           intros (_ & _ & H). exfalso; apply (H c eq_refl Hh).
        -- rewrite Z.leb_le. split.
           ++ intro H2. repeat split; [exact H2| |].
              ** intros m' E; injection E as <-; lia.
              ** intros c' E Hin. injection E as <-.
                 apply Hmem, set_has_In in Hin. congruence.
           ++ intros (H2 & _ & _); exact H2.
      * simpl. rewrite Z.leb_le. split.
        -- intro H2; repeat split; [exact H2| |discriminate].
           intros m' E; injection E as <-; lia.
        -- intros (H2 & _); exact H2.
    + case_eq (Z.ltb (Z.of_nat (length cs)) m); intro Hlt; simpl.
      * apply Z.ltb_lt in Hlt. split; [discriminate|].
        intros (_ & H & _). specialize (H m eq_refl). lia.
      * apply Z.ltb_ge in Hlt.
        destruct ex as [c|]; unfold Js.truthy_str.
        -- destruct (String.eqb_spec c "") as [->|Hc]; [congruence|]. simpl.
           case_eq (Js.set_has (country_set s) c); intro Hh.
           ++ apply set_has_In, Hmem in Hh. split; [discriminate|].
              intros (_ & _ & H). exfalso; apply (H c eq_refl Hh).
           ++ rewrite Z.leb_le. split.
              ** intro H2. repeat split; [exact H2| |].
                 --- intros m' E; injection E as <-; lia.
                 --- intros c' E Hin. injection E as <-.
                     apply Hmem, set_has_In in Hin. congruence.
              ** intros (H2 & _ & _); exact H2.
        -- simpl. rewrite Z.leb_le. split.
           ++ intro H2; repeat split; [exact H2| |discriminate].
              intros m' E; injection E as <-; lia.
           ++ intros (H2 & _); exact H2.
  - simpl. destruct ex as [c|]; unfold Js.truthy_str.
    + destruct (String.eqb_spec c "") as [->|Hc]; [congruence|]. simpl.
      case_eq (Js.set_has (country_set s) c); intro Hh.
      * apply set_has_In, Hmem in Hh. split; [discriminate|].
        intros (_ & _ & H). exfalso; apply (H c eq_refl Hh).
      * rewrite Z.leb_le. split.
        -- intro H2. repeat split; [exact H2|discriminate|].
           intros c' E Hin. injection E as <-.
           apply Hmem, set_has_In in Hin. congruence.
        -- intros (H2 & _ & _); exact H2.
    + simpl. rewrite Z.leb_le. split.
      * intro H2; repeat split; [exact H2|discriminate|discriminate].
      * intros (H2 & _); exact H2.
Qed.

(** Claim C3: [search_international_studies] keeps a fetched record iff its
    set of distinct location countries (any duplicate-free enumeration
    [cs] of it) has at least 2 elements, at least [minCountries] when that
    argument is given, and does not contain [excludeCountry] when that
    argument is given (a non-empty string).  In particular a record with
    one distinct country is always dropped, and one with 3 distinct
    countries is dropped when [minCountries = 4]. *)
Theorem international_filter_spec (upstream : query -> upstream_reply)
    (a : intl_args) (r : StudySearchResponse) (s : study) (cs : list string) :
  upstream (international_params a) = Reply r ->
  ia_excludeCountry a <> Some "" ->
  NoDup cs -> (forall c, In c cs <-> In c (map country (location_list s))) ->
  exists kept,
    run (handleSearchInternationalStudies upstream a)
      = ([international_params a],
         inr (JsonText {| io_criteria := a; io_totalCount := totalCount r;
                          io_resultsShown := length (map international_entry kept);
                          io_studies := map international_entry kept |}))
    /\ (In s kept <->
        In s (studies r)
        /\ 2 <= Z.of_nat (length cs)
        /\ (forall m, ia_minCountries a = Some m -> m <= Z.of_nat (length cs))
        /\ (forall c, ia_excludeCountry a = Some c -> ~ In c cs))
    /\ (length cs = 1%nat -> ~ In s kept)
    /\ (ia_minCountries a = Some 4 -> length cs = 3%nat -> ~ In s kept).
Proof.
  intros Hup Hex Hnd Hcs.
  exists (filter (international_keep (ia_minCountries a) (ia_excludeCountry a)) (studies r)).
  pose proof (international_keep_spec (ia_minCountries a) (ia_excludeCountry a) s cs
                Hex Hnd Hcs) as Hk.
  assert (Hin : In s (filter (international_keep (ia_minCountries a) (ia_excludeCountry a))
                               (studies r)) <->
                In s (studies r)
                /\ 2 <= Z.of_nat (length cs)
                /\ (forall m, ia_minCountries a = Some m -> m <= Z.of_nat (length cs))
                /\ (forall c, ia_excludeCountry a = Some c -> ~ In c cs)).
  { rewrite filter_In, Hk. tauto. }
  split; [|split; [exact Hin|split]].
  - unfold handleSearchInternationalStudies; unfold_run. rewrite Hup.
    rewrite reported_total_eq. reflexivity.
  - intros H1 H. apply Hin in H. destruct H as (_ & H2 & _). rewrite H1 in H2. lia.
  - intros H4 H3 H. apply Hin in H. destruct H as (_ & _ & H & _).
    specialize (H 4 H4). rewrite H3 in H. lia.
Qed.

(** Four records against the sample registry (450 studies reported):
    three distinct countries fall short of [minCountries = 4]; a record
    in Spain is dropped when Spain is excluded; a one-country record is
    dropped, and a three-country record outside Spain kept, under
    [minCountries = 2] with Spain excluded. *)
Lemma international_filter_spec_witness :
  (exists kept,
     run (handleSearchInternationalStudies Sample.registry (Sample.intl_args_with (Some 4) None))
         = ([international_params (Sample.intl_args_with (Some 4) None)],
            inr (JsonText {| io_criteria := Sample.intl_args_with (Some 4) None;
                             io_totalCount := totalCount Sample.response;
                             io_resultsShown := length (map international_entry kept);
                             io_studies := map international_entry kept |}))
     /\ ~ In Sample.s3 kept)
  /\ (exists kept,
     run (handleSearchInternationalStudies Sample.registry (Sample.intl_args_with None (Some "Spain")))
         = ([international_params (Sample.intl_args_with None (Some "Spain"))],
            inr (JsonText {| io_criteria := Sample.intl_args_with None (Some "Spain");
                             io_totalCount := totalCount Sample.response;
                             io_resultsShown := length (map international_entry kept);
                             io_studies := map international_entry kept |}))
     /\ ~ In Sample.s1 kept)
  /\ (exists kept,
     run (handleSearchInternationalStudies Sample.registry (Sample.intl_args_with (Some 2) (Some "Spain")))
         = ([international_params (Sample.intl_args_with (Some 2) (Some "Spain"))],
            inr (JsonText {| io_criteria := Sample.intl_args_with (Some 2) (Some "Spain");
                             io_totalCount := totalCount Sample.response;
                             io_resultsShown := length (map international_entry kept);
                             io_studies := map international_entry kept |}))
     /\ ~ In Sample.s2 kept)
  /\ (exists kept,
     run (handleSearchInternationalStudies Sample.registry (Sample.intl_args_with (Some 2) (Some "Spain")))
         = ([international_params (Sample.intl_args_with (Some 2) (Some "Spain"))],
            inr (JsonText {| io_criteria := Sample.intl_args_with (Some 2) (Some "Spain");
                             io_totalCount := totalCount Sample.response;
                             io_resultsShown := length (map international_entry kept);
                             io_studies := map international_entry kept |}))
     /\ In Sample.s3 kept).
Proof.
  split; [|split; [|split]].
  - destruct (international_filter_spec Sample.registry (Sample.intl_args_with (Some 4) None)
                Sample.response Sample.s3 ["Peru"; "Chile"; "Brazil"])
      as (kept & Hrun & _ & _ & H4).
    + reflexivity.
    + discriminate.
    + repeat constructor; simpl; intuition discriminate.
    + intro c. simpl. tauto.
    + exists kept. split; [exact Hrun | apply H4; reflexivity].
  - destruct (international_filter_spec Sample.registry (Sample.intl_args_with None (Some "Spain"))
                Sample.response Sample.s1 ["France"; "Spain"])
      as (kept & Hrun & Hiff & _ & _).
    + reflexivity.
    + discriminate.
    + repeat constructor; simpl; intuition discriminate.
    + intro c. simpl. tauto.
    + exists kept. split; [exact Hrun|].
      intro H. apply Hiff in H. destruct H as (_ & _ & _ & Hx).
      apply (Hx "Spain" eq_refl). simpl. tauto.
  - destruct (international_filter_spec Sample.registry (Sample.intl_args_with (Some 2) (Some "Spain"))
                Sample.response Sample.s2 ["Chile"])
      as (kept & Hrun & _ & H1 & _).
    + reflexivity.
    + discriminate.
    + repeat constructor; simpl; intuition discriminate.
    + intro c. simpl. tauto.
    + exists kept. split; [exact Hrun | apply H1; reflexivity].
  - destruct (international_filter_spec Sample.registry (Sample.intl_args_with (Some 2) (Some "Spain"))
                Sample.response Sample.s3 ["Peru"; "Chile"; "Brazil"])
      as (kept & Hrun & Hiff & _ & _).
    + reflexivity.
    + discriminate.
    + repeat constructor; simpl; intuition discriminate.
    + intro c. simpl. tauto.
    + exists kept. split; [exact Hrun|]. apply Hiff. repeat split.
      * simpl. tauto.
      * simpl. lia.
      * intros m E. injection E as <-. simpl. lia.
      * intros c E. injection E as <-. simpl. intuition discriminate.
Defined.

(* ------------------------------------------------------------------ *)
(** ** Similar studies                                                  *)
(* ------------------------------------------------------------------ *)

(** Claim C6: for a well-formed identifier whose reference lookup succeeds
    with zero studies, [get_similar_studies] makes no second request and
    returns the not-found result [isError: true] with the text
    ["Reference study not found: <id>"]; nothing is thrown. *)
Theorem similar_reference_not_found (upstream : query -> upstream_reply)
    (a : similar_args) (id : string) (r : StudySearchResponse) :
  sim_nctId a = Some id -> Nct.nct_ok (Some id) = true ->
  upstream (reference_query id) = Reply r -> studies r = [] ->
  run (handleGetSimilarStudies upstream a)
    = ([reference_query id], inr (ErrorText ("Reference study not found: " ++ id)))
  /\ isError (ErrorText (A := similar_output) ("Reference study not found: " ++ id)) = true.
Proof.
  intros Hid Hok Hup Hnil. split; [|reflexivity].
  unfold handleGetSimilarStudies. rewrite Hid, Hok. unfold_run.
  rewrite Hup. simpl. rewrite Hnil. reflexivity.
Qed.

Lemma similar_reference_not_found_witness :
  run (handleGetSimilarStudies Sample.empty_registry
         (Sample.similar_args_with "NCT12345678" None))
    = ([reference_query "NCT12345678"],
       inr (ErrorText ("Reference study not found: " ++ "NCT12345678")))
  /\ isError (ErrorText (A := similar_output)
                ("Reference study not found: " ++ "NCT12345678")) = true.
Proof.
  apply (similar_reference_not_found Sample.empty_registry
           (Sample.similar_args_with "NCT12345678" None) "NCT12345678"
           {| studies := []; totalCount := 0 |}); reflexivity.
Defined.

Lemma set_param_no_empty (k : string) (v : pval) (q : query) (k' : string) :
  In (k', PStr "") (set_param k v q) -> In (k', PStr "") q \/ (k, v) = (k', PStr "").
Proof.
  induction q as [|[k0 v0] q IH]; simpl.
  - intros [H|[]]; auto.
  - destruct (String.eqb k k0).
    + intros [H|H]; auto.
    + intros [H|H]; auto. destruct (IH H); auto.
Qed.

Lemma set_if_str_no_empty (k : string) (x : option string) (q : query) (k' : string) :
  ~ In (k', PStr "") q -> ~ In (k', PStr "") (set_if_str k x q).
Proof.
  intros Hq H. unfold set_if_str in H. destruct x as [t|]; [|contradiction].
  unfold Js.truthy_str in H. destruct (String.eqb_spec t "") as [->|Ht]; simpl in H.
  - contradiction.
  - destruct (set_param_no_empty _ _ _ _ H) as [H'|E]; [contradiction|].
    injection E as _ E. contradiction.
Qed.

(** The secondary query never carries an empty string value. *)
Lemma similarity_params_no_empty (ty : string) (ref : study) (ps : option Z) (k : string) :
  ~ In (k, PStr "") (similarity_params ty ref ps).
Proof.
  assert (Hb : ~ In (k, PStr "") (base_params ps)).
  { unfold base_params. simpl. intros [H|[H|[]]]; discriminate. }
  unfold similarity_params.
  destruct (String.eqb ty "CONDITION"); [apply set_if_str_no_empty; exact Hb|].
  destruct (String.eqb ty "SPONSOR"); [apply set_if_str_no_empty; exact Hb|].
  destruct (String.eqb ty "PHASE"); [apply set_if_str_no_empty; exact Hb|].
  exact Hb.
Qed.

(** The reference record lacks the field selected by [similarityType]. *)
Definition selected_field_absent (ty : string) (ref : study) : Prop :=
  (ty = "CONDITION" /\ first_condition ref = None)
  \/ (ty = "SPONSOR" /\ study_sponsor_name ref = None)
  \/ (ty = "PHASE" /\ first_phase ref = None).

(** Claim C7: when the reference record lacks the field selected by
    [similarityType] (no first condition, no lead-sponsor name, no first
    phase), the secondary query of [get_similar_studies] is exactly
    [{format: 'json', pageSize}]: the parameter is omitted, the query
    never carries an empty string, and the handler returns a result
    instead of throwing. *)
Theorem similar_absent_field_omitted (upstream : query -> upstream_reply)
    (a : similar_args) (id : string) (r : StudySearchResponse)
    (ref : study) (rest : list study) :
  sim_nctId a = Some id -> Nct.nct_ok (Some id) = true ->
  upstream (reference_query id) = Reply r -> studies r = ref :: rest ->
  selected_field_absent (Js.or_opt_str (sim_similarityType a) "CONDITION") ref ->
  similarity_params (Js.or_opt_str (sim_similarityType a) "CONDITION") ref (sim_pageSize a)
    = base_params (sim_pageSize a)
  /\ (forall k, ~ In (k, PStr "")
        (similarity_params (Js.or_opt_str (sim_similarityType a) "CONDITION") ref
                           (sim_pageSize a)))
  /\ exists res,
      run (handleGetSimilarStudies upstream a)
        = ([reference_query id; base_params (sim_pageSize a)], inr res).
Proof.
  intros Hid Hok Hup Hst Habs.
  assert (Hq : similarity_params (Js.or_opt_str (sim_similarityType a) "CONDITION") ref
                 (sim_pageSize a) = base_params (sim_pageSize a)).
  { unfold similarity_params.
    destruct Habs as [[-> H]|[[-> H]|[-> H]]]; simpl; rewrite H; reflexivity. }
  split; [exact Hq|]. split; [intro k; apply similarity_params_no_empty|].
  unfold handleGetSimilarStudies. rewrite Hid, Hok. unfold_run.
  rewrite Hup. simpl. rewrite Hst, Hq.
  destruct (upstream (base_params (sim_pageSize a))); eexists; reflexivity.
Qed.

Lemma similar_absent_field_omitted_witness :
  similarity_params "SPONSOR" Sample.s1 None = base_params None
  /\ (forall k, ~ In (k, PStr "") (similarity_params "SPONSOR" Sample.s1 None))
  /\ exists res,
      run (handleGetSimilarStudies Sample.registry
             (Sample.similar_args_with "NCT00000001" (Some "SPONSOR")))
        = ([reference_query "NCT00000001"; base_params None], inr res).
Proof.
  apply (similar_absent_field_omitted Sample.registry
           (Sample.similar_args_with "NCT00000001" (Some "SPONSOR")) "NCT00000001"
           Sample.response Sample.s1 [Sample.s2; Sample.s3]); try reflexivity.
  right; left. split; reflexivity.
Defined.

(** Claim C10: with [similarityType = 'INTERVENTION'], which the input
    schema allows, no case of the [switch] applies: the secondary query is
    only [{format: 'json', pageSize}], and when it succeeds the result is
    the unconstrained page minus the reference study, not an error. *)
Theorem similar_intervention_unconstrained (upstream : query -> upstream_reply)
    (a : similar_args) (id : string) (r r2 : StudySearchResponse)
    (ref : study) (rest : list study) :
  sim_nctId a = Some id -> Nct.nct_ok (Some id) = true ->
  sim_similarityType a = Some "INTERVENTION" ->
  upstream (reference_query id) = Reply r -> studies r = ref :: rest ->
  upstream (base_params (sim_pageSize a)) = Reply r2 ->
  similarity_params "INTERVENTION" ref (sim_pageSize a) = base_params (sim_pageSize a)
  /\ run (handleGetSimilarStudies upstream a)
     = ([reference_query id; base_params (sim_pageSize a)],
        inr (JsonText
          (let results := map formatStudySummary
                (filter (fun s => negb (String.eqb (nctId (identification s)) id))
                        (studies r2)) in
           {| sm_reference_nctId := id;
              sm_reference_title := briefTitle (identification ref);
              sm_similarityType := "INTERVENTION";
              sm_totalCount := totalCount r2;
              sm_resultsShown := length results;
              sm_similarStudies := results |}))).
Proof.
  intros Hid Hok Hty Hup Hst Hup2.
  assert (Hq : similarity_params "INTERVENTION" ref (sim_pageSize a)
               = base_params (sim_pageSize a)) by reflexivity.
  split; [exact Hq|].
  unfold handleGetSimilarStudies. rewrite Hid, Hok. unfold_run.
  rewrite Hup. cbn beta iota. rewrite Hst, Hty.
  change (Js.or_opt_str (Some "INTERVENTION") "CONDITION") with "INTERVENTION".
  rewrite Hq, Hup2.
  rewrite reported_total_eq. reflexivity.
Qed.

Lemma similar_intervention_unconstrained_witness :
  similarity_params "INTERVENTION" Sample.s1 None = base_params None
  /\ run (handleGetSimilarStudies Sample.registry
           (Sample.similar_args_with "NCT00000001" (Some "INTERVENTION")))
     = ([reference_query "NCT00000001"; base_params None],
        inr (JsonText
          (let results := map formatStudySummary
                (filter (fun s => negb (String.eqb (nctId (identification s)) "NCT00000001"))
                        (studies Sample.response)) in
           {| sm_reference_nctId := "NCT00000001";
              sm_reference_title := briefTitle (identification Sample.s1);
              sm_similarityType := "INTERVENTION";
              sm_totalCount := totalCount Sample.response;
              sm_resultsShown := length results;
              sm_similarStudies := results |}))).
Proof.
  apply (similar_intervention_unconstrained Sample.registry
           (Sample.similar_args_with "NCT00000001" (Some "INTERVENTION")) "NCT00000001"
           Sample.response Sample.response Sample.s1 [Sample.s2; Sample.s3]);
    reflexivity.
Defined.

(* ------------------------------------------------------------------ *)
(** ** NCT identifier validation                                        *)
(* ------------------------------------------------------------------ *)

Lemma match_literal_spec (p s rest : string) :
  Nct.match_literal p s = Some rest <-> s = (p ++ rest)%string.
Proof.
  revert s. induction p as [|a p IH]; intro s; simpl.
  - split; congruence.
  - destruct s as [|b s].
    + split; discriminate.
    + destruct (Ascii.eqb_spec a b) as [->|Hab].
      * rewrite IH. split; [intros ->; reflexivity | intro E; injection E; auto].
      * split; [discriminate | intro E; injection E; congruence].
Qed.

Lemma digits_then_end_spec (n : nat) (s : string) :
  Nct.digits_then_end n s = true <->
  exists ds, length ds = n /\ forallb Str.is_digit ds = true /\ s = string_of_list_ascii ds.
Proof.
  revert s. induction n as [|n IH]; intros [|c s]; simpl.
  - split; [intros _; exists []; auto | reflexivity].
  - split; [discriminate|].
    intros ([|d ds] & Hl & _ & E); simpl in *; [discriminate | lia].
  - split; [discriminate|].
    intros ([|d ds] & Hl & _ & E); simpl in *; [lia | discriminate].
  - rewrite andb_true_iff, IH. split.
    + intros [Hc (ds & Hl & Hd & ->)]. exists (c :: ds). simpl.
      rewrite Hc, Hd. auto.
    + intros ([|d ds] & Hl & Hd & E); simpl in *; [discriminate|].
      injection E as -> ->. apply andb_true_iff in Hd as [Hc Hd].
      split; [exact Hc|]. exists ds. auto.
Qed.

Lemma length_string_of_list_ascii (ds : list ascii) :
  String.length (string_of_list_ascii ds) = length ds.
Proof. induction ds as [|d ds IH]; simpl; auto. Qed.

Lemma pattern_test_empty : Nct.pattern_test "" = false.
Proof. reflexivity. Qed.

(** Claim C8: [/^NCT\d{8}$/.test] accepts exactly the strings made of the
    prefix ["NCT"] and 8 digits (so 11 characters), the guard of the
    identifier-taking tools accepts exactly the present identifiers that
    pass it, and an identifier failing the guard makes
    [get_study_details] and [get_similar_studies] throw [InvalidParams]
    before any request is sent (the query log stays empty). *)
Theorem nct_validator_spec (upstream : query -> upstream_reply)
    (id : option string) (a : similar_args) :
  (forall s, Nct.pattern_test s = true <->
     exists ds, length ds = 8%nat /\ forallb Str.is_digit ds = true
                /\ s = ("NCT" ++ string_of_list_ascii ds)%string)
  /\ (forall s, Nct.pattern_test s = true -> String.length s = 11%nat)
  /\ (Nct.nct_ok id = true <-> exists s, id = Some s /\ Nct.pattern_test s = true)
  /\ (Nct.nct_ok id = false ->
      run (handleGetStudyDetails upstream id)
        = ([], inl (McpError InvalidParams invalid_nct_message))
      /\ (sim_nctId a = id ->
          run (handleGetSimilarStudies upstream a)
            = ([], inl (McpError InvalidParams invalid_nct_message)))).
Proof.
  assert (Hpat : forall s, Nct.pattern_test s = true <->
     exists ds, length ds = 8%nat /\ forallb Str.is_digit ds = true
                /\ s = ("NCT" ++ string_of_list_ascii ds)%string).
  { intro s. unfold Nct.pattern_test.
    case_eq (Nct.match_literal "NCT" s).
    - intros rest Hm. apply match_literal_spec in Hm. subst s.
      rewrite digits_then_end_spec. split.
      + intros (ds & Hl & Hd & ->). eauto.
      + intros (ds & Hl & Hd & E). simpl in E. injection E as E.
        exists ds. auto.
    - intro Hm. split; [discriminate|].
      intros (ds & _ & _ & E).
      assert (Hs : Nct.match_literal "NCT" s = Some (string_of_list_ascii ds))
        by (apply match_literal_spec; exact E).
      congruence. }
  split; [exact Hpat|]. split.
  { intros s Hs. apply Hpat in Hs. destruct Hs as (ds & Hl & _ & ->).
    simpl. rewrite length_string_of_list_ascii, Hl. reflexivity. }
  split.
  - unfold Nct.nct_ok. destruct id as [s|]; simpl.
    + unfold Js.truthy_str. rewrite andb_true_iff.
      split.
      * intros [_ H]. eauto.
      * intros (s' & E & H). injection E as <-. split; [|exact H].
        destruct (String.eqb_spec s "") as [->|]; [|reflexivity].
        rewrite pattern_test_empty in H. discriminate.
    + split; [discriminate|]. intros (s & E & _); discriminate.
  - intro Hbad. split.
    + unfold handleGetStudyDetails. destruct id as [s|]; [rewrite Hbad|]; reflexivity.
    + intros Ha. unfold handleGetSimilarStudies. rewrite Ha.
      destruct id as [s|]; [rewrite Hbad|]; reflexivity.
Qed.

Lemma nct_validator_spec_witness :
  Nct.pattern_test "NCT12345678" = true
  /\ Nct.pattern_test "NCT1234567" = false
  /\ run (handleGetStudyDetails Sample.registry (Some "NCT1234567"))
       = ([], inl (McpError InvalidParams invalid_nct_message))
  /\ run (handleGetSimilarStudies Sample.registry
            (Sample.similar_args_with "NCT1234567" None))
       = ([], inl (McpError InvalidParams invalid_nct_message)).
Proof.
  destruct (nct_validator_spec Sample.registry (Some "NCT1234567")
              (Sample.similar_args_with "NCT1234567" None))
    as (_ & _ & _ & Hbad).
  destruct (Hbad eq_refl) as [H1 H2].
  split; [reflexivity|]. split; [reflexivity|].
  split; [exact H1 | exact (H2 eq_refl)].
Defined.

(* ------------------------------------------------------------------ *)
(** ** Page size                                                        *)
(* ------------------------------------------------------------------ *)

Lemma lookup_set_param_other (k k' : string) (v : pval) (q : query) :
  k <> k' -> lookup_param k (set_param k' v q) = lookup_param k q.
Proof.
  intro Hk. induction q as [|[k0 v0] q IH]; simpl.
  - destruct (String.eqb_spec k k'); congruence.
  - destruct (String.eqb_spec k' k0) as [->|]; simpl.
    + destruct (String.eqb_spec k k0); congruence.
    + destruct (String.eqb k k0); [reflexivity | exact IH].
Qed.

Lemma lookup_set_if_str_other (k k' : string) (x : option string) (q : query) :
  k <> k' -> lookup_param k (set_if_str k' x q) = lookup_param k q.
Proof.
  intro Hk. unfold set_if_str. destruct x as [t|]; [|reflexivity].
  destruct (Js.truthy_str (Some t)); [apply lookup_set_param_other; exact Hk | reflexivity].
Qed.

Ltac page_size_lookup :=
  cbv zeta;
  repeat (rewrite lookup_set_if_str_other by discriminate
          || rewrite lookup_set_param_other by discriminate);
  reflexivity.

(** Counterexample to claim C1: [search_studies] called with
    [pageSize = 500] (above the schema's maximum of 100) and
    [get_recruiting_studies] called with [pageSize = -5] throw nothing and
    send their single request with that page size unchanged. *)
Lemma pageSize_forwarded_unclamped :
  fst (run (handleSearchStudies Sample.registry (Sample.search_args_page (Some 500))))
    = [search_studies_params (Sample.search_args_page (Some 500))]
  /\ lookup_param "pageSize" (search_studies_params (Sample.search_args_page (Some 500)))
     = Some (PNum 500)
  /\ (exists v, snd (run (handleSearchStudies Sample.registry
                             (Sample.search_args_page (Some 500)))) = inr v)
  /\ fst (run (handleGetRecruitingStudies Sample.registry
                (Sample.recruiting_args_page (Some (-5)))))
     = [recruiting_params (Sample.recruiting_args_page (Some (-5)))]
  /\ lookup_param "pageSize" (recruiting_params (Sample.recruiting_args_page (Some (-5))))
     = Some (PNum (-5))
  /\ (exists v, snd (run (handleGetRecruitingStudies Sample.registry
                             (Sample.recruiting_args_page (Some (-5))))) = inr v).
Proof.
  repeat split; try (eexists; reflexivity); reflexivity.
Qed.

Lemma require_arg_truthy {A} (x : option string) (v msg : string) (k : string -> M A) :
  x = Some v -> v <> "" -> run (require_arg x msg k) = run (k v).
Proof.
  intros -> Hv. unfold require_arg, Js.truthy_str.
  destruct (String.eqb_spec v "") as [|_]; [contradiction | reflexivity].
Qed.

Lemma search_page_log {C E} (upstream : query -> upstream_reply) (params : query)
    (criteria : C) (entry : study -> E) :
  run (search_page upstream params criteria entry)
  = ([params],
     inr (match upstream params with
          | Reply r => JsonText {| pg_criteria := criteria;
                                   pg_totalCount := totalCount r;
                                   pg_resultsShown := length (studies r);
                                   pg_studies := map entry (studies r) |}
          | Failure e => ErrorText (api_error_text e)
          end)).
Proof.
  unfold search_page. unfold_run. simpl.
  destruct (upstream params) as [r|e]; [|reflexivity].
  rewrite reported_total_eq, length_map. reflexivity.
Qed.

Ltac page_size_lookup_cases :=
  cbv zeta;
  repeat first [ rewrite lookup_set_if_str_other by discriminate
               | rewrite lookup_set_param_other by discriminate
               | match goal with
                 | |- context [match ?x with _ => _ end] => destruct x
                 | |- context [if ?b then _ else _] => destruct b
                 end ];
  reflexivity.

Ltac first_request_at_once :=
  rewrite search_page_log; eexists; reflexivity.

Ltac guarded_first_request :=
  let c := fresh "c" in let Hc := fresh "Hc" in let Hne := fresh "Hne" in
  intros c Hc Hne; rewrite (require_arg_truthy _ c _ _ Hc Hne); cbv beta;
  rewrite search_page_log; eexists; reflexivity.

(** Claim C1, as the code behaves: every tool that takes [pageSize] sends
    [pageSize = args.pageSize || 10] (a missing or zero page size becomes
    10, any other value is sent unchanged) and raises no client error for
    it.  The tools with no required argument send their single request at
    once and return a result without throwing; those with one
    ([search_by_condition], [search_by_sponsor], [search_by_intervention],
    [search_rare_diseases], [search_by_primary_outcome]) do so as soon as
    that argument is present; the secondary query of
    [get_similar_studies] carries the same [pageSize].  The fixed sizes:
    [get_trial_statistics] always asks for 100 studies, the lookups of
    [get_study_details] and of the reference study for 1. *)
Theorem pageSize_forwarded_as_given (upstream : query -> upstream_reply)
    (sa : search_args) (ra : recruiting_args) (ea : elig_args) (ia : intl_args)
    (ty : string) (ref : study) (ps : option Z)
    (la : location_args) (dra : date_range_args) (rsa : results_args)
    (pa : pediatric_args) (futureDate : string) (days_since : string -> option Z)
    (ta : timeline_args) (ca : condition_args) (spa : sponsor_args)
    (iva : intervention_args) (rda : rare_args) (oa : outcome_args)
    (sta : statistics_args) (id : string) :
  (exists v, run (handleSearchStudies upstream sa) = ([search_studies_params sa], inr v))
  /\ lookup_param "pageSize" (search_studies_params sa)
     = Some (PNum (Js.or_opt_num (sa_pageSize sa) 10))
  /\ (exists v, run (handleGetRecruitingStudies upstream ra) = ([recruiting_params ra], inr v))
  /\ lookup_param "pageSize" (recruiting_params ra)
     = Some (PNum (Js.or_opt_num (ra_pageSize ra) 10))
  /\ (exists v, run (handleSearchByEligibilityCriteria upstream ea)
                = ([eligibility_params ea], inr v))
  /\ lookup_param "pageSize" (eligibility_params ea)
     = Some (PNum (Js.or_opt_num (ea_pageSize ea) 10))
  /\ (exists v, run (handleSearchInternationalStudies upstream ia)
                = ([international_params ia], inr v))
  /\ lookup_param "pageSize" (international_params ia)
     = Some (PNum (Js.or_opt_num (ia_pageSize ia) 10))
  /\ lookup_param "pageSize" (similarity_params ty ref ps)
     = Some (PNum (Js.or_opt_num ps 10))
  /\ (forall n, n <> 0 -> Js.or_opt_num (Some n) 10 = n)
  /\ Js.or_opt_num (Some 0) 10 = 10 /\ Js.or_opt_num None 10 = 10
  (* the other tools without a required argument *)
  /\ (exists v, run (handleSearchByLocation upstream la) = ([location_params la], inr v))
  /\ lookup_param "pageSize" (location_params la)
     = Some (PNum (Js.or_opt_num (la_pageSize la) 10))
  /\ (exists v, run (handleSearchByDateRange upstream dra) = ([date_range_params dra], inr v))
  /\ lookup_param "pageSize" (date_range_params dra)
     = Some (PNum (Js.or_opt_num (dra_pageSize dra) 10))
  /\ (exists v, run (handleGetStudiesWithResults upstream rsa) = ([results_params rsa], inr v))
  /\ lookup_param "pageSize" (results_params rsa)
     = Some (PNum (Js.or_opt_num (rsa_pageSize rsa) 10))
  /\ (exists v, run (handleGetPediatricStudies upstream pa) = ([pediatric_params pa], inr v))
  /\ lookup_param "pageSize" (pediatric_params pa)
     = Some (PNum (Js.or_opt_num (pa_pageSize pa) 10))
  /\ (exists v, run (handleGetStudyTimeline upstream futureDate days_since ta)
                = ([timeline_params futureDate ta], inr v))
  /\ lookup_param "pageSize" (timeline_params futureDate ta)
     = Some (PNum (Js.or_opt_num (ta_pageSize ta) 10))
  (* the tools with a required argument, once it is present *)
  /\ (forall c, ca_condition ca = Some c -> c <> "" ->
        exists v, run (handleSearchByCondition upstream ca) = ([condition_params ca c], inr v))
  /\ (forall c, lookup_param "pageSize" (condition_params ca c)
                = Some (PNum (Js.or_opt_num (ca_pageSize ca) 10)))
  /\ (forall c, spa_sponsor spa = Some c -> c <> "" ->
        exists v, run (handleSearchBySponsor upstream spa) = ([sponsor_params spa c], inr v))
  /\ (forall c, lookup_param "pageSize" (sponsor_params spa c)
                = Some (PNum (Js.or_opt_num (spa_pageSize spa) 10)))
  /\ (forall c, iva_intervention iva = Some c -> c <> "" ->
        exists v, run (handleSearchByIntervention upstream iva)
                  = ([intervention_params iva c], inr v))
  /\ (forall c, lookup_param "pageSize" (intervention_params iva c)
                = Some (PNum (Js.or_opt_num (iva_pageSize iva) 10)))
  /\ (forall c, rda_rareDisease rda = Some c -> c <> "" ->
        exists v, run (handleSearchRareDiseases upstream rda) = ([rare_params rda c], inr v))
  /\ (forall c, lookup_param "pageSize" (rare_params rda c)
                = Some (PNum (Js.or_opt_num (rda_pageSize rda) 10)))
  /\ (forall c, oa_outcome oa = Some c -> c <> "" ->
        exists v, run (handleSearchByPrimaryOutcome upstream oa) = ([outcome_params oa c], inr v))
  /\ (forall c, lookup_param "pageSize" (outcome_params oa c)
                = Some (PNum (Js.or_opt_num (oa_pageSize oa) 10)))
  (* the fixed page sizes *)
  /\ (exists v, run (handleGetTrialStatistics upstream sta) = ([statistics_params sta], inr v))
  /\ lookup_param "pageSize" (statistics_params sta) = Some (PNum 100)
  /\ lookup_param "pageSize" (details_query id) = Some (PNum 1)
  /\ lookup_param "pageSize" (reference_query id) = Some (PNum 1).
Proof.
  repeat split.
  - unfold handleSearchStudies; unfold_run.
    destruct (upstream _); eexists; reflexivity.
  - unfold search_studies_params. page_size_lookup.
  - unfold handleGetRecruitingStudies; unfold_run.
    destruct (upstream _); eexists; reflexivity.
  - unfold recruiting_params. page_size_lookup.
  - unfold handleSearchByEligibilityCriteria; unfold_run.
    destruct (upstream _); eexists; reflexivity.
  - unfold eligibility_params. cbv zeta.
    repeat rewrite lookup_set_if_str_other by discriminate.
    destruct (ea_healthyVolunteers ea);
      [rewrite lookup_set_param_other by discriminate|]; page_size_lookup.
  - unfold handleSearchInternationalStudies; unfold_run.
    destruct (upstream _); eexists; reflexivity.
  - unfold international_params. page_size_lookup.
  - unfold similarity_params.
    destruct (String.eqb ty "CONDITION"); [page_size_lookup|].
    destruct (String.eqb ty "SPONSOR"); [page_size_lookup|].
    destruct (String.eqb ty "PHASE"); page_size_lookup.
  - intros n Hn. simpl. destruct (Z.eqb_spec n 0); congruence.
  - unfold handleSearchByLocation. first_request_at_once.
  - unfold location_params. page_size_lookup_cases.
  - unfold handleSearchByDateRange. first_request_at_once.
  - unfold date_range_params. page_size_lookup_cases.
  - unfold handleGetStudiesWithResults. first_request_at_once.
  - unfold results_params. page_size_lookup_cases.
  - unfold handleGetPediatricStudies. first_request_at_once.
  - unfold pediatric_params. page_size_lookup_cases.
  - unfold handleGetStudyTimeline. first_request_at_once.
  - unfold timeline_params. page_size_lookup_cases.
  - unfold handleSearchByCondition. guarded_first_request.
  - intro c. unfold condition_params. page_size_lookup_cases.
  - unfold handleSearchBySponsor. guarded_first_request.
  - intro c. unfold sponsor_params. page_size_lookup_cases.
  - unfold handleSearchByIntervention. guarded_first_request.
  - intro c. unfold intervention_params. page_size_lookup_cases.
  - unfold handleSearchRareDiseases. guarded_first_request.
  - intro c. unfold rare_params. page_size_lookup_cases.
  - unfold handleSearchByPrimaryOutcome. guarded_first_request.
  - intro c. unfold outcome_params. page_size_lookup_cases.
  - unfold handleGetTrialStatistics. unfold_run. simpl.
    destruct (upstream (statistics_params sta)); eexists; reflexivity.
  - unfold statistics_params. page_size_lookup_cases.
Qed.

(** [pageSize = 500] (above every schema maximum) given to each tool with
    no required argument, and to each guarded tool with its argument
    present, is sent unchanged in a request made at once; [-5] reaches the
    secondary query of [get_similar_studies]. *)
Lemma pageSize_forwarded_as_given_witness :
  lookup_param "pageSize" (location_params (Sample.location_args_page (Some 500)))
    = Some (PNum 500)
  /\ lookup_param "pageSize" (timeline_params Sample.future_date
                                (Sample.timeline_args_page (Some 500))) = Some (PNum 500)
  /\ lookup_param "pageSize" (similarity_params "PHASE" Sample.s1 (Some (-5)))
     = Some (PNum (-5))
  /\ Js.or_opt_num (Some 500) 10 = 500
  /\ (exists v, run (handleSearchByCondition Sample.registry
                       (Sample.condition_args_page (Some 500)))
                = ([condition_params (Sample.condition_args_page (Some 500)) "asthma"], inr v))
  /\ lookup_param "pageSize" (condition_params (Sample.condition_args_page (Some 500)) "asthma")
     = Some (PNum 500)
  /\ (exists v, run (handleSearchBySponsor Sample.registry (Sample.sponsor_args_page (Some 500)))
                = ([sponsor_params (Sample.sponsor_args_page (Some 500)) "Pfizer"], inr v))
  /\ (exists v, run (handleSearchByIntervention Sample.registry
                       (Sample.intervention_args_page (Some 500)))
                = ([intervention_params (Sample.intervention_args_page (Some 500)) "aspirin"],
                   inr v))
  /\ (exists v, run (handleSearchRareDiseases Sample.registry (Sample.rare_args_page (Some 500)))
                = ([rare_params (Sample.rare_args_page (Some 500)) "Fabry disease"], inr v))
  /\ (exists v, run (handleSearchByPrimaryOutcome Sample.registry
                       (Sample.outcome_args_page (Some 500)))
                = ([outcome_params (Sample.outcome_args_page (Some 500)) "overall survival"],
                   inr v)).
Proof.
  destruct (pageSize_forwarded_as_given Sample.registry
              (Sample.search_args_page (Some 500)) (Sample.recruiting_args_page (Some 500))
              (Sample.elig_args_with None) (Sample.intl_args_with None None)
              "PHASE" Sample.s1 (Some (-5))
              (Sample.location_args_page (Some 500)) (Sample.date_range_args_page (Some 500))
              (Sample.results_args_page (Some 500)) (Sample.pediatric_args_page (Some 500))
              Sample.future_date Sample.days_since (Sample.timeline_args_page (Some 500))
              (Sample.condition_args_page (Some 500)) (Sample.sponsor_args_page (Some 500))
              (Sample.intervention_args_page (Some 500)) (Sample.rare_args_page (Some 500))
              (Sample.outcome_args_page (Some 500)) (Sample.statistics_args_by None)
              "NCT00000001")
    as (_ & _ & _ & _ & _ & _ & _ & _ & Hsim & Hnz & _ & _ & _ & Hloc & _ & _ & _ & _ & _ & _
        & _ & Htl & Hcond & Hcondps & Hsp & _ & Hiv & _ & Hrd & _ & Hoa & _).
  split; [exact Hloc|]. split; [exact Htl|]. split; [exact Hsim|].
  split; [apply Hnz; discriminate|].
  split; [apply Hcond; [reflexivity | discriminate]|].
  split; [apply Hcondps|].
  split; [apply Hsp; [reflexivity | discriminate]|].
  split; [apply Hiv; [reflexivity | discriminate]|].
  split; [apply Hrd; [reflexivity | discriminate]|].
  apply Hoa; [reflexivity | discriminate].
Defined.

(* ------------------------------------------------------------------ *)
(** ** Defaults of the result projections                               *)
(* ------------------------------------------------------------------ *)

(** Counterexample to claim C2: a present criteria text is not returned
    as its 200-character truncation (["..."] is appended), and an absent
    one yields ["undefined..."], not ["Not available"]. *)
Lemma criteriaPreview_counterexample :
  ep_criteriaPreview (eligibility_preview Sample.s1)
    <> Str.substring0 200 "Adults with diabetes"
  /\ ep_criteriaPreview (eligibility_preview Sample.s3) = "undefined..."
  /\ ep_criteriaPreview (eligibility_preview Sample.s3) <> "Not available".
Proof.
  split; [|split]; vm_compute; try reflexivity; discriminate.
Qed.

Lemma or_str_ellipsis (x : string) : Js.or_str (x ++ "...") "Not available" = (x ++ "...")%string.
Proof. destruct x; reflexivity. Qed.

(** Claim C2, as the code behaves: every accessor of the summary and of
    the eligibility block of [search_by_eligibility_criteria] falls back
    to its default when its field is missing, and a present criteria text
    is previewed as its first 200 characters followed by ["..."]. *)
Theorem projector_defaults (s : study) (t : string) :
  (forall m, eligibility s = Some m -> eligibilityCriteria m = Some t ->
     ep_criteriaPreview (eligibility_preview s) = (Str.substring0 200 t ++ "...")%string)
  /\ (eligibility s = None ->
      ep_sex (eligibility_preview s) = "Unknown"
      /\ ep_minimumAge (eligibility_preview s) = "Not specified"
      /\ ep_maximumAge (eligibility_preview s) = "Not specified"
      /\ ep_healthyVolunteers (eligibility_preview s) = false)
  /\ (forall m, eligibility s = Some m -> minimumAge m = None ->
      ep_minimumAge (eligibility_preview s) = "Not specified")
  /\ (forall m, eligibility s = Some m -> maximumAge m = None ->
      ep_maximumAge (eligibility_preview s) = "Not specified")
  /\ (study_phases s = None -> sum_phase (formatStudySummary s) = ["Not specified"])
  /\ (design s = None -> sum_studyType (formatStudySummary s) = "Unknown")
  /\ (study_sponsor_name s = None -> sum_sponsor (formatStudySummary s) = "Not specified")
  /\ (study_conditions s = None -> sum_conditions (formatStudySummary s) = [])
  /\ (startDateStruct (status s) = None ->
      sum_startDate (formatStudySummary s) = "Not specified").
Proof.
  unfold eligibility_preview, eligibility_block, criteriaPreview, formatStudySummary,
    study_phases, study_sponsor_name, study_conditions.
  repeat split; intros; simpl;
    repeat match goal with H : _ = _ |- _ => rewrite H; clear H end;
    try reflexivity.
  apply or_str_ellipsis.
Qed.

Lemma projector_defaults_witness :
  ep_criteriaPreview (eligibility_preview Sample.s1) = "Adults with diabetes..."
  /\ ep_sex (eligibility_preview Sample.s3) = "Unknown"
  /\ sum_sponsor (formatStudySummary Sample.s1) = "Not specified".
Proof.
  destruct (projector_defaults Sample.s1 "Adults with diabetes")
    as (Hp & _ & _ & _ & _ & _ & Hsp & _).
  destruct (projector_defaults Sample.s3 "") as (_ & Hnone & _).
  split; [exact (Hp _ eq_refl eq_refl)|].
  split; [exact (proj1 (Hnone eq_refl)) | exact (Hsp eq_refl)].
Defined.

(* ================================================================== *)
(** * Further properties of the handlers                                *)
(* ================================================================== *)

(* ------------------------------------------------------------------ *)
(** ** Statistics: [groupByField] and [calculateStatistics]             *)
(* ------------------------------------------------------------------ *)

Lemma group_get_set (k k' : string) (v : gval) (g : groups) :
  group_get k (group_set k' v g) = if String.eqb k k' then Some v else group_get k g.
Proof.
  induction g as [|[k0 v0] g IH]; simpl.
  - reflexivity.
  - destruct (String.eqb_spec k' k0) as [->|Hne]; simpl.
    + destruct (String.eqb k k0); reflexivity.
    + rewrite IH. destruct (String.eqb_spec k k') as [->|]; [|reflexivity].
      destruct (String.eqb_spec k' k0); congruence.
Qed.

Lemma group_total_set (k : string) (v : gval) (g : groups) :
  group_total (group_set k v g) = group_total g - opt_val (group_get k g) + gnum v.
Proof.
  induction g as [|[k0 v0] g IH]; simpl; [unfold group_total; simpl; lia|].
  destruct (String.eqb_spec k k0) as [->|]; unfold group_total in *; simpl; [lia|].
  rewrite IH. lia.
Qed.

Lemma not_proto_name (k : string) :
  ~ In k proto_names ->
  String.eqb k "__proto__" = false /\ existsb (String.eqb k) proto_names = false.
Proof.
  intro H. split.
  - apply String.eqb_neq. intro E. apply H. subst k. simpl. tauto.
  - apply not_true_iff_false. intro E. apply existsb_exists in E as [x [Hx Ex]].
    apply String.eqb_eq in Ex. subst x. contradiction.
Qed.

(** For an ordinary key, [bump] reads and writes an own property. *)
Lemma bump_ordinary (g : groups) (key : string) :
  ~ In key proto_names ->
  bump g key = group_set key (match group_get key g with
                              | Some v => incremented (ROwn v)
                              | None => GNum 1 end) g.
Proof.
  intro H. destruct (not_proto_name key H) as [H1 H2].
  unfold bump, group_assign, group_read. rewrite H1, H2.
  destruct (group_get key g); reflexivity.
Qed.

Lemma bump_get_other (g : groups) (key k : string) :
  k <> key -> group_get k (bump g key) = group_get k g.
Proof.
  intro Hne. unfold bump, group_assign.
  destruct (String.eqb key "__proto__"); [reflexivity|].
  rewrite group_get_set. apply String.eqb_neq in Hne. rewrite Hne. reflexivity.
Qed.

Lemma bump_get (g : groups) (key k : string) :
  ~ In k proto_names -> counts_positive g ->
  group_get k (bump g key)
  = if String.eqb k key then Some (GNum (opt_val (group_get key g) + 1)) else group_get k g.
Proof.
  intros Hk Hpos. destruct (String.eqb_spec k key) as [<-|Hne].
  - rewrite bump_ordinary, group_get_set, String.eqb_refl by exact Hk.
    f_equal. destruct (group_get k g) as [v|] eqn:E; [|reflexivity].
    destruct (Hpos k v Hk E) as [n [-> Hn]]. simpl.
    destruct (Z.eqb_spec n 0); [lia|reflexivity].
  - apply bump_get_other, Hne.
Qed.

Lemma bump_positive (g : groups) (key : string) :
  counts_positive g -> counts_positive (bump g key).
Proof.
  intros Hpos k v Hk. rewrite bump_get by assumption.
  destruct (String.eqb_spec k key) as [<-|Hne].
  - intro E; injection E as <-. eexists; split; [reflexivity|]. unfold opt_val.
    destruct (group_get k g) as [w|] eqn:E; [|lia].
    destruct (Hpos _ _ Hk E) as [n [-> Hn]]. simpl. lia.
  - apply Hpos, Hk.
Qed.

Lemma bump_total (g : groups) (key : string) :
  ~ In key proto_names -> counts_positive g ->
  group_total (bump g key) = group_total g + 1.
Proof.
  intros Hk Hpos. rewrite bump_ordinary, group_total_set by exact Hk.
  unfold opt_val. destruct (group_get key g) as [v|] eqn:E; [|simpl; lia].
  destruct (Hpos _ _ Hk E) as [n [-> Hn]]. simpl.
  destruct (Z.eqb_spec n 0); simpl; lia.
Qed.

Lemma groupBy_fold_get (f : string) (l : list study) (g : groups) (k : string) :
  ~ In k proto_names -> counts_positive g ->
  group_get k (fold_left (fun g s => bump g (group_key f s)) l g)
  = match count_key k (map (group_key f) l) with
    | O => group_get k g
    | c => Some (GNum (opt_val (group_get k g) + Z.of_nat c))
    end.
Proof.
  intro Hk. revert g. induction l as [|s l IH]; intros g Hpos; simpl; [reflexivity|].
  rewrite IH by (apply bump_positive; exact Hpos).
  rewrite bump_get by assumption. unfold count_key. simpl.
  destruct (String.eqb_spec k (group_key f s)) as [->|Hne]; simpl.
  - destruct (length (filter (String.eqb (group_key f s)) (map (group_key f) l))) eqn:E;
      simpl; f_equal; f_equal; lia.
  - reflexivity.
Qed.

Lemma groupBy_fold_total (f : string) (l : list study) (g : groups) :
  (forall s, In s l -> ~ In (group_key f s) proto_names) ->
  counts_positive g ->
  group_total (fold_left (fun g s => bump g (group_key f s)) l g)
  = group_total g + Z.of_nat (length l).
Proof.
  revert g. induction l as [|s l IH]; intros g Hl Hpos; simpl; [lia|].
  rewrite IH.
  - rewrite bump_total; [lia | apply Hl; left; reflexivity | exact Hpos].
  - intros t Ht. apply Hl. right. exact Ht.
  - apply bump_positive, Hpos.
Qed.

Lemma counts_positive_nil : counts_positive [].
Proof. intros k v _ H; discriminate. Qed.

Lemma groupByField_total (l : list study) (f : string) :
  (forall s, In s l -> ~ In (group_key f s) proto_names) ->
  group_total (groupByField l f) = Z.of_nat (length l).
Proof.
  intro Hl. unfold groupByField.
  rewrite groupBy_fold_total by (exact Hl || apply counts_positive_nil). reflexivity.
Qed.

(** The grouping key is one of the study's five grouped fields or a
    fallback text. *)
Lemma group_key_cases (f : string) (s : study) :
  In (group_key f s)
    [overallStatus (status s); Js.or_opt_str (first_phase s) "Not specified";
     Js.or_opt_str (option_map studyType (design s)) "Unknown";
     Js.or_opt_str (first_condition s) "Not specified";
     Js.or_opt_str (study_sponsor_name s) "Not specified"; "Unknown"].
Proof.
  unfold group_key.
  repeat match goal with
  | |- context [if String.eqb f ?x then _ else _] => destruct (String.eqb f x)
  end; simpl; tauto.
Qed.

(** No grouping key of the sample studies is an [Object.prototype] name. *)
Lemma sample_group_keys_ordinary (s : study) (f : string) :
  In s (studies Sample.response) -> ~ In (group_key f s) proto_names.
Proof.
  intros Hs. pose proof (group_key_cases f s) as Hk.
  generalize dependent (group_key f s). intros k Hk.
  simpl in Hs. destruct Hs as [<-|[<-|[<-|[]]]]; vm_compute in Hk;
    repeat destruct Hk as [<-|Hk]; try contradiction;
    vm_compute; intuition discriminate.
Qed.

(** [groupByField] counts, for every grouping key that is not an
    [Object.prototype] property name, how many studies have that key; a
    key no study has is absent from the result. *)
Theorem groupByField_counts (l : list study) (f k : string) :
  ~ In k proto_names ->
  group_get k (groupByField l f)
  = match count_key k (map (group_key f) l) with
    | O => None
    | c => Some (GNum (Z.of_nat c))
    end.
Proof.
  intros Hk. unfold groupByField.
  rewrite groupBy_fold_get by (exact Hk || apply counts_positive_nil).
  destruct (count_key k (map (group_key f) l)); reflexivity.
Qed.

Lemma groupByField_counts_witness :
  group_get "RECRUITING" (groupByField (studies Sample.response) "status") = Some (GNum 3).
Proof.
  rewrite (groupByField_counts (studies Sample.response) "status" "RECRUITING").
  - vm_compute. reflexivity.
  - vm_compute. intuition discriminate.
Defined.

(** [calculateStatistics]: without a (non-empty) [groupBy] it reports
    [totalStudies] as the number of analysed studies and three groupings
    (by status, phase and study type) whose counts each add up to it; with
    one, a single grouping whose counts add up to the number of studies.
    This holds when no study has a grouped value named like an
    [Object.prototype] member. *)
Theorem calculateStatistics_totals (l : list study) (groupBy : option string) :
  (forall s f, In s l -> ~ In (group_key f s) proto_names) ->
  match calculateStatistics l groupBy with
  | StatsAll n byStatus byPhase byStudyType =>
      Js.truthy_str groupBy = false
      /\ n = length l
      /\ group_total byStatus = Z.of_nat n
      /\ group_total byPhase = Z.of_nat n
      /\ group_total byStudyType = Z.of_nat n
  | StatsBy g =>
      Js.truthy_str groupBy = true /\ group_total g = Z.of_nat (length l)
  end.
Proof.
  intro Hl.
  assert (H : forall f, group_total (groupByField l f) = Z.of_nat (length l)).
  { intro f. apply groupByField_total. intros s Hs. apply Hl, Hs. }
  unfold calculateStatistics. destruct groupBy as [f|].
  - destruct (Js.truthy_str (Some f)) eqn:E.
    + split; [reflexivity | apply H].
    + repeat split; try apply H; reflexivity.
  - repeat split; apply H.
Qed.

Lemma calculateStatistics_totals_witness :
  (match calculateStatistics (studies Sample.response) None with
   | StatsAll n byStatus byPhase byStudyType =>
       Js.truthy_str None = false /\ n = length (studies Sample.response)
       /\ group_total byStatus = Z.of_nat n /\ group_total byPhase = Z.of_nat n
       /\ group_total byStudyType = Z.of_nat n
   | StatsBy g => Js.truthy_str None = true
                  /\ group_total g = Z.of_nat (length (studies Sample.response))
   end)
  /\ (match calculateStatistics (studies Sample.response) (Some "sponsor") with
      | StatsAll n byStatus byPhase byStudyType =>
          Js.truthy_str (Some "sponsor") = false /\ n = length (studies Sample.response)
          /\ group_total byStatus = Z.of_nat n /\ group_total byPhase = Z.of_nat n
          /\ group_total byStudyType = Z.of_nat n
      | StatsBy g => Js.truthy_str (Some "sponsor") = true
                     /\ group_total g = Z.of_nat (length (studies Sample.response))
      end).
Proof.
  split; apply calculateStatistics_totals; intros s f Hs;
    apply sample_group_keys_ordinary; exact Hs.
Defined.

(** [groupByField] on a field it does not know puts every study under the
    single key ["Unknown"]. *)
Theorem groupByField_unknown_field (l : list study) (f : string) :
  ~ In f ["status"; "phase"; "studyType"; "condition"; "sponsor"] ->
  groupByField l f
  = match l with [] => [] | _ => [("Unknown", GNum (Z.of_nat (length l)))] end.
Proof.
  intro Hf.
  assert (Hk : forall s, group_key f s = "Unknown").
  { intro s. unfold group_key.
    repeat match goal with
    | |- context [String.eqb f ?x] =>
        destruct (String.eqb_spec f x) as [->|]; [exfalso; apply Hf; simpl; tauto|]
    end; reflexivity. }
  unfold groupByField. destruct l as [|s l]; [reflexivity|].
  simpl. rewrite Hk. change (bump [] "Unknown") with [("Unknown", GNum 1)].
  assert (Hgen : forall l (n : Z), 0 < n ->
            fold_left (fun g s => bump g (group_key f s)) l [("Unknown", GNum n)]
            = [("Unknown", GNum (n + Z.of_nat (length l)))]).
  { induction l0 as [|t l0 IH]; intros n Hn; simpl; [f_equal; f_equal; f_equal; lia|].
    rewrite Hk. unfold bump, group_read, group_assign. simpl.
    destruct (Z.eqb_spec n 0); [lia|].
    rewrite IH by lia. f_equal; f_equal; f_equal; lia. }
  rewrite Hgen by lia. f_equal; f_equal; f_equal. lia.
Qed.

Lemma groupByField_unknown_field_witness :
  groupByField (studies Sample.response) "country" = [("Unknown", GNum 3)].
Proof.
  rewrite (groupByField_unknown_field (studies Sample.response) "country").
  - reflexivity.
  - simpl. intuition discriminate.
Defined.

(* ------------------------------------------------------------------ *)
(** ** Query composition                                                *)
(* ------------------------------------------------------------------ *)

Lemma lookup_set_param_same (k : string) (v : pval) (q : query) :
  lookup_param k (set_param k v q) = Some v.
Proof.
  induction q as [|[k0 v0] q IH]; simpl; [now rewrite String.eqb_refl|].
  destruct (String.eqb_spec k k0) as [->|]; simpl; [now rewrite String.eqb_refl|].
  destruct (String.eqb_spec k k0); [contradiction | exact IH].
Qed.

Lemma lookup_app_other (k : string) (q : query) (k' : string) (v : pval) :
  k <> k' -> lookup_param k (q ++ [(k', v)]) = lookup_param k q.
Proof.
  intro Hk. induction q as [|[k0 v0] q IH]; simpl.
  - destruct (String.eqb_spec k k'); congruence.
  - destruct (String.eqb k k0); [reflexivity | exact IH].
Qed.

Lemma string_app_assoc (a b c : string) :
  (a ++ (b ++ c))%string = ((a ++ b) ++ c)%string.
Proof. induction a as [|x a IH]; simpl; [reflexivity | now rewrite IH]. Qed.

Lemma string_app_nonempty (a b : string) : a <> "" -> String.eqb (a ++ b) "" = false.
Proof. destruct a; [contradiction | reflexivity]. Qed.

Lemma fold_append_segment (segs : list (option string)) (lq : string) :
  fold_left append_segment segs lq = join_onto lq (present_segments segs).
Proof.
  revert lq. induction segs as [|o segs IH]; intro lq; simpl; [reflexivity|].
  rewrite IH. destruct o as [v|]; simpl; [|reflexivity].
  unfold Js.truthy_str. destruct (String.eqb v ""); simpl; [reflexivity|].
  destruct (String.eqb_spec lq "") as [->|_]; reflexivity.
Qed.

Lemma join_onto_concat (lq : string) (xs : list string) :
  Forall (fun x => x <> "") xs -> lq <> "" ->
  join_onto lq xs = String.concat ", " (lq :: xs).
Proof.
  revert lq. induction xs as [|x xs IH]; intros lq Hxs Hlq; simpl; [reflexivity|].
  inversion Hxs as [|? ? Hx Hxs']; subst.
  destruct (String.eqb_spec lq "") as [|_]; [contradiction|].
  rewrite IH; [|exact Hxs'|].
  - destruct xs as [|y ys]; [reflexivity|].
    simpl. rewrite <- !string_app_assoc. reflexivity.
  - destruct lq; [contradiction | discriminate].
Qed.

Lemma present_segments_nonempty (segs : list (option string)) :
  Forall (fun x => x <> "") (present_segments segs).
Proof.
  induction segs as [|[v|] segs IH]; simpl; [constructor| |exact IH].
  destruct (String.eqb_spec v ""); simpl; [exact IH | constructor; auto].
Qed.

Lemma fold_append_segment_concat (segs : list (option string)) :
  fold_left append_segment segs "" = String.concat ", " (present_segments segs).
Proof.
  rewrite fold_append_segment.
  pose proof (present_segments_nonempty segs) as H.
  destruct (present_segments segs) as [|x xs]; [reflexivity|].
  inversion H; subst. simpl. apply join_onto_concat; assumption.
Qed.

Lemma location_query_fold (a : location_args) :
  location_query a
  = fold_left append_segment [la_country a; la_state a; la_city a; la_facilityName a] "".
Proof.
  unfold location_query. cbv zeta. cbn [fold_left].
  destruct (la_country a) as [c|]; [|reflexivity].
  unfold append_segment. destruct (Js.truthy_str (Some c)); reflexivity.
Qed.

(** [search_by_location] joins the non-empty ones of [country], [state],
    [city] and [facilityName], in this order, with [", "]; it sends
    [query.locn] only when that text is non-empty, and [filter.distance]
    only when both [distance] and [city] are given. *)
Theorem location_query_spec (a : location_args) :
  location_query a
    = String.concat ", " (present_segments [la_country a; la_state a; la_city a;
                                            la_facilityName a])
  /\ lookup_param "query.locn" (location_params a)
     = (if String.eqb (location_query a) "" then None else Some (PStr (location_query a)))
  /\ lookup_param "filter.distance" (location_params a)
     = match la_distance a with
       | Some d => if Js.truthy_num (la_distance a) && Js.truthy_str (la_city a)
                   then Some (PNum d) else None
       | None => None
       end.
Proof.
  split; [|split].
  - rewrite location_query_fold. apply fold_append_segment_concat.
  - unfold location_params, Js.truthy_str. cbv zeta.
    destruct (String.eqb (location_query a) ""), (la_distance a) as [d|];
      simpl; repeat match goal with |- context [if ?b then _ else _] => destruct b end;
      reflexivity.
  - unfold location_params, Js.truthy_str. cbv zeta.
    destruct (String.eqb (location_query a) ""), (la_distance a) as [d|];
      simpl; repeat match goal with |- context [if ?b then _ else _] => destruct b end;
      reflexivity.
Qed.

(* ------------------------------------------------------------------ *)
(** ** The single-request handlers                                      *)
(* ------------------------------------------------------------------ *)

(** Reads a key through a chain of [params[k] = v] assignments. *)
Ltac lookup_chain :=
  repeat first [ rewrite lookup_set_if_str_other by discriminate
               | rewrite lookup_set_param_other by discriminate
               | apply lookup_set_param_same ];
  try reflexivity.

Lemma require_arg_falsy {A} (x : option string) (msg : string) (k : string -> M A) :
  Js.truthy_str x = false -> run (require_arg x msg k) = ([], inl (McpError InvalidParams msg)).
Proof.
  unfold require_arg, run, throw. destruct x as [v|]; intro H; [rewrite H|]; reflexivity.
Qed.

(** A falsy required argument ([condition], [sponsor], [intervention],
    [rareDisease], [outcome]) is rejected with [InvalidParams] and its
    message before any request is sent. *)
Theorem required_argument_guards (upstream : query -> upstream_reply)
    (ca : condition_args) (spa : sponsor_args) (iva : intervention_args)
    (rda : rare_args) (oa : outcome_args) :
  (Js.truthy_str (ca_condition ca) = false ->
     run (handleSearchByCondition upstream ca)
     = ([], inl (McpError InvalidParams "Condition parameter is required")))
  /\ (Js.truthy_str (spa_sponsor spa) = false ->
     run (handleSearchBySponsor upstream spa)
     = ([], inl (McpError InvalidParams "Sponsor parameter is required")))
  /\ (Js.truthy_str (iva_intervention iva) = false ->
     run (handleSearchByIntervention upstream iva)
     = ([], inl (McpError InvalidParams "Intervention parameter is required")))
  /\ (Js.truthy_str (rda_rareDisease rda) = false ->
     run (handleSearchRareDiseases upstream rda)
     = ([], inl (McpError InvalidParams "Rare disease parameter is required")))
  /\ (Js.truthy_str (oa_outcome oa) = false ->
     run (handleSearchByPrimaryOutcome upstream oa)
     = ([], inl (McpError InvalidParams "Outcome parameter is required"))).
Proof.
  repeat split; intro H; apply require_arg_falsy; exact H.
Qed.

Lemma required_argument_guards_witness :
  run (handleSearchByCondition Sample.registry
         {| ca_condition := Some ""; ca_phase := None; ca_recruitmentStatus := None;
            ca_pageSize := None |})
  = ([], inl (McpError InvalidParams "Condition parameter is required")).
Proof.
  apply (required_argument_guards Sample.registry
           {| ca_condition := Some ""; ca_phase := None; ca_recruitmentStatus := None;
              ca_pageSize := None |}
           {| spa_sponsor := None; spa_sponsorType := None; spa_pageSize := None |}
           {| iva_intervention := None; iva_interventionType := None; iva_phase := None;
              iva_pageSize := None |}
           {| rda_rareDisease := None; rda_recruitmentStatus := None; rda_pageSize := None |}
           {| oa_outcome := None; oa_condition := None; oa_phase := None;
              oa_pageSize := None |}).
  reflexivity.
Defined.

(** A given required argument is sent, unchanged, under its own key in
    the handler's one request; [search_rare_diseases] also sends
    [query.term] as the disease followed by [" OR orphan OR rare"]. *)
Theorem required_argument_forwarded (upstream : query -> upstream_reply)
    (ca : condition_args) (spa : sponsor_args) (iva : intervention_args)
    (rda : rare_args) (oa : outcome_args) (c sp iv rd o : string) :
  ca_condition ca = Some c -> c <> "" ->
  spa_sponsor spa = Some sp -> sp <> "" ->
  iva_intervention iva = Some iv -> iv <> "" ->
  rda_rareDisease rda = Some rd -> rd <> "" ->
  oa_outcome oa = Some o -> o <> "" ->
  fst (run (handleSearchByCondition upstream ca)) = [condition_params ca c]
  /\ lookup_param "query.cond" (condition_params ca c) = Some (PStr c)
  /\ fst (run (handleSearchBySponsor upstream spa)) = [sponsor_params spa sp]
  /\ lookup_param "query.spons" (sponsor_params spa sp) = Some (PStr sp)
  /\ fst (run (handleSearchByIntervention upstream iva)) = [intervention_params iva iv]
  /\ lookup_param "query.intr" (intervention_params iva iv) = Some (PStr iv)
  /\ fst (run (handleSearchRareDiseases upstream rda)) = [rare_params rda rd]
  /\ lookup_param "query.cond" (rare_params rda rd) = Some (PStr rd)
  /\ lookup_param "query.term" (rare_params rda rd)
     = Some (PStr (rd ++ " OR orphan OR rare"))
  /\ fst (run (handleSearchByPrimaryOutcome upstream oa)) = [outcome_params oa o]
  /\ lookup_param "query.outc" (outcome_params oa o) = Some (PStr o).
Proof.
  intros Hc Hc' Hsp Hsp' Hiv Hiv' Hrd Hrd' Ho Ho'.
  unfold handleSearchByCondition, handleSearchBySponsor, handleSearchByIntervention,
    handleSearchRareDiseases, handleSearchByPrimaryOutcome.
  rewrite (require_arg_truthy _ c _ _ Hc Hc'), (require_arg_truthy _ sp _ _ Hsp Hsp'),
    (require_arg_truthy _ iv _ _ Hiv Hiv'), (require_arg_truthy _ rd _ _ Hrd Hrd'),
    (require_arg_truthy _ o _ _ Ho Ho'), !search_page_log.
  unfold condition_params, sponsor_params, intervention_params, rare_params,
    outcome_params; cbv zeta.
  repeat split; lookup_chain.
Qed.

Lemma required_argument_forwarded_witness :
  fst (run (handleSearchRareDiseases Sample.registry
              {| rda_rareDisease := Some "ALS"; rda_recruitmentStatus := None;
                 rda_pageSize := None |}))
  = [rare_params {| rda_rareDisease := Some "ALS"; rda_recruitmentStatus := None;
                    rda_pageSize := None |} "ALS"]
  /\ lookup_param "query.term"
       (rare_params {| rda_rareDisease := Some "ALS"; rda_recruitmentStatus := None;
                       rda_pageSize := None |} "ALS")
     = Some (PStr ("ALS" ++ " OR orphan OR rare")).
Proof.
  destruct (required_argument_forwarded Sample.registry
              {| ca_condition := Some "asthma"; ca_phase := None;
                 ca_recruitmentStatus := None; ca_pageSize := None |}
              {| spa_sponsor := Some "NIH"; spa_sponsorType := None; spa_pageSize := None |}
              {| iva_intervention := Some "aspirin"; iva_interventionType := None;
                 iva_phase := None; iva_pageSize := None |}
              {| rda_rareDisease := Some "ALS"; rda_recruitmentStatus := None;
                 rda_pageSize := None |}
              {| oa_outcome := Some "survival"; oa_condition := None; oa_phase := None;
                 oa_pageSize := None |}
              "asthma" "NIH" "aspirin" "ALS" "survival")
    as (_ & _ & _ & _ & _ & _ & H1 & _ & H2 & _);
    try reflexivity; try discriminate.
  split; [exact H1 | exact H2].
Defined.

(** Filters no argument can change: [get_recruiting_studies] always asks
    for [RECRUITING] studies, [get_studies_with_results] for [COMPLETED]
    studies with [hasResults], [get_pediatric_studies] for the [CHILD] age
    group, and [get_trial_statistics] for a page of 100 studies. *)
Theorem forced_filters (ra : recruiting_args) (rsa : results_args)
    (pa : pediatric_args) (sta : statistics_args) :
  lookup_param "filter.overallStatus" (recruiting_params ra) = Some (PStr "RECRUITING")
  /\ lookup_param "filter.overallStatus" (results_params rsa) = Some (PStr "COMPLETED")
  /\ lookup_param "filter.hasResults" (results_params rsa) = Some (PBool true)
  /\ lookup_param "filter.stdAge" (pediatric_params pa) = Some (PStr "CHILD")
  /\ lookup_param "pageSize" (statistics_params sta) = Some (PNum 100).
Proof.
  unfold recruiting_params, results_params, pediatric_params, statistics_params; cbv zeta.
  repeat split; lookup_chain.
  destruct (pa_ageRange pa) as [r|]; [|lookup_chain].
  destruct (Js.truthy_str (Some r)); [|lookup_chain].
  destruct (age_range_bounds r) as [[lo hi]|]; lookup_chain.
Qed.

(** [get_pediatric_studies] sends [filter.minimumAge] and
    [filter.maximumAge] from its table exactly when [ageRange] is one of
    [INFANT], [CHILD], [ADOLESCENT]; any other value sends neither. *)
Theorem pediatric_age_bounds (pa : pediatric_args) :
  lookup_param "filter.minimumAge" (pediatric_params pa)
    = match pa_ageRange pa with
      | Some r => option_map (fun b => PStr (fst b)) (age_range_bounds r)
      | None => None
      end
  /\ lookup_param "filter.maximumAge" (pediatric_params pa)
    = match pa_ageRange pa with
      | Some r => option_map (fun b => PStr (snd b)) (age_range_bounds r)
      | None => None
      end.
Proof.
  unfold pediatric_params; cbv zeta.
  destruct (pa_ageRange pa) as [r|]; [|split; lookup_chain].
  unfold Js.truthy_str.
  destruct (String.eqb_spec r "") as [->|Hr]; [simpl; split; lookup_chain|]. simpl.
  destruct (age_range_bounds r) as [[lo hi]|]; simpl; split; lookup_chain.
Qed.

(** The status filter of [get_study_timeline]: a missing or empty
    [timelineType] means [CURRENT]; [UPCOMING] adds the start-date bound;
    any other unknown value sends no status filter at all. *)
Theorem timeline_type_filters (futureDate : string) (a : timeline_args) :
  (Js.truthy_str (ta_timelineType a) = false ->
     lookup_param "filter.overallStatus" (timeline_params futureDate a)
     = Some (PStr "RECRUITING,NOT_YET_RECRUITING,ACTIVE_NOT_RECRUITING")
     /\ lookup_param "filter.studyStartDateFrom" (timeline_params futureDate a) = None)
  /\ (ta_timelineType a = Some "UPCOMING" ->
     lookup_param "filter.overallStatus" (timeline_params futureDate a)
     = Some (PStr "NOT_YET_RECRUITING")
     /\ lookup_param "filter.studyStartDateFrom" (timeline_params futureDate a)
     = Some (PStr futureDate))
  /\ (forall t, ta_timelineType a = Some t -> t <> "" ->
     ~ In t ["CURRENT"; "COMPLETED"; "UPCOMING"] ->
     lookup_param "filter.overallStatus" (timeline_params futureDate a) = None
     /\ lookup_param "filter.studyStartDateFrom" (timeline_params futureDate a) = None).
Proof.
  unfold timeline_params; cbv zeta. split; [|split].
  - intro H. unfold Js.or_opt_str, Js.or_str.
    destruct (ta_timelineType a) as [t|]; simpl in H.
    + apply negb_false_iff, String.eqb_eq in H. subst t. simpl. split; lookup_chain.
    + simpl. split; lookup_chain.
  - intros ->. simpl. split; lookup_chain.
  - intros t -> Ht Hin. unfold Js.or_opt_str, Js.or_str.
    destruct (String.eqb_spec t "") as [|_]; [contradiction|].
    destruct (String.eqb_spec t "CURRENT") as [->|_]; [exfalso; apply Hin; simpl; tauto|].
    destruct (String.eqb_spec t "COMPLETED") as [->|_]; [exfalso; apply Hin; simpl; tauto|].
    destruct (String.eqb_spec t "UPCOMING") as [->|_]; [exfalso; apply Hin; simpl; tauto|].
    split; lookup_chain.
Qed.

Lemma timeline_type_filters_witness :
  lookup_param "filter.overallStatus"
    (timeline_params "2026-11-17"
       {| ta_condition := None; ta_sponsor := None; ta_phase := None;
          ta_timelineType := Some "ARCHIVED"; ta_pageSize := None |}) = None
  /\ lookup_param "filter.studyStartDateFrom"
    (timeline_params "2026-11-17"
       {| ta_condition := None; ta_sponsor := None; ta_phase := None;
          ta_timelineType := Some "ARCHIVED"; ta_pageSize := None |}) = None.
Proof.
  apply (proj2 (proj2 (timeline_type_filters "2026-11-17"
           {| ta_condition := None; ta_sponsor := None; ta_phase := None;
              ta_timelineType := Some "ARCHIVED"; ta_pageSize := None |})) "ARCHIVED");
    [reflexivity | discriminate | simpl; intuition discriminate].
Defined.

(** [search_by_eligibility_criteria] forwards [healthyVolunteers]
    whenever it is given, [false] included. *)
Theorem eligibility_healthyVolunteers_forwarded (a : elig_args) :
  lookup_param "filter.healthyVolunteers" (eligibility_params a)
  = option_map PBool (ea_healthyVolunteers a).
Proof.
  unfold eligibility_params; cbv zeta. lookup_chain.
  destruct (ea_healthyVolunteers a) as [b|]; simpl; lookup_chain.
Qed.

(** The NCT identifier guard of [get_study_details] and
    [get_similar_studies]: an identifier that is missing or not of the form
    [NCT########] is rejected with [InvalidParams] before any request. *)
Theorem nct_guard_rejects (upstream : query -> upstream_reply)
    (x : option string) (ps : option Z) (ty : option string) :
  Nct.nct_ok x = false ->
  run (handleGetStudyDetails upstream x)
    = ([], inl (McpError InvalidParams invalid_nct_message))
  /\ run (handleGetSimilarStudies upstream
            {| sim_nctId := x; sim_similarityType := ty; sim_pageSize := ps |})
    = ([], inl (McpError InvalidParams invalid_nct_message)).
Proof.
  intro H. unfold handleGetStudyDetails, handleGetSimilarStudies; simpl.
  destruct x as [id|]; [rewrite H|]; split; reflexivity.
Qed.

Lemma nct_guard_rejects_witness :
  run (handleGetStudyDetails Sample.registry (Some "NCT1234"))
    = ([], inl (McpError InvalidParams invalid_nct_message))
  /\ run (handleGetSimilarStudies Sample.registry
            {| sim_nctId := Some "NCT1234"; sim_similarityType := None;
               sim_pageSize := None |})
    = ([], inl (McpError InvalidParams invalid_nct_message)).
Proof.
  apply (nct_guard_rejects Sample.registry (Some "NCT1234") None None). reflexivity.
Defined.

(** [get_study_details] on a valid identifier sends exactly one request,
    which filters on [filter.ids] with that identifier, and never throws.
    It answers with study data exactly when the registry returns at least
    one study, and then with the detailed view of the first one; an empty
    answer gives ["No study found with NCT ID: <id>"], a 404
    ["Study not found: <id>"]. *)
Theorem details_outcomes (upstream : query -> upstream_reply) (id : string) :
  Nct.nct_ok (Some id) = true ->
  lookup_param "filter.ids" (details_query id) = Some (PStr id)
  /\ exists res,
       run (handleGetStudyDetails upstream (Some id)) = ([details_query id], inr res)
       /\ (forall d, res = JsonText d ->
             exists r s rest, upstream (details_query id) = Reply r
                              /\ studies r = s :: rest /\ d = formatDetailedStudy s)
       /\ (forall r, upstream (details_query id) = Reply r -> studies r <> [] ->
             exists d, res = JsonText d)
       /\ (forall r, upstream (details_query id) = Reply r -> studies r = [] ->
             res = ErrorText ("No study found with NCT ID: " ++ id))
       /\ (forall e, upstream (details_query id) = Failure e ->
             response_status e = Some 404 -> res = ErrorText ("Study not found: " ++ id)).
Proof.
  intro H. split; [reflexivity|].
  unfold handleGetStudyDetails. rewrite H. unfold_run. simpl.
  destruct (upstream (details_query id)) as [r|e] eqn:Eu; simpl.
  - destruct (studies r) as [|s rest] eqn:Es.
    + eexists; split; [reflexivity|]. repeat split.
      * intros d Hd; discriminate.
      * intros r' Er' Hne. injection Er' as <-. contradiction.
      * intros e' Ee; discriminate.
    + eexists; split; [reflexivity|]. repeat split.
      * intros d Hd. injection Hd as <-. exists r, s, rest. auto.
      * intros r' _ _. eexists; reflexivity.
      * intros r' Er' Hn. injection Er' as <-. congruence.
      * intros e' Ee; discriminate.
  - exists (match response_status e with
            | Some 404 => ErrorText ("Study not found: " ++ id)
            | _ => ErrorText (api_error_text e)
            end).
    split.
    { destruct (response_status e) as [[|p|p]|]; try reflexivity.
      repeat (destruct p as [p|p|]; try reflexivity). }
    repeat split.
    + intros d Hd. destruct (response_status e) as [[|p|p]|]; try discriminate.
      repeat (destruct p as [p|p|]; try discriminate).
    + intros r' Er'; discriminate.
    + intros r' Er'; discriminate.
    + intros e' Ee H404. injection Ee as <-. rewrite H404. reflexivity.
Qed.

Lemma details_outcomes_witness :
  lookup_param "filter.ids" (details_query "NCT00000001") = Some (PStr "NCT00000001")
  /\ exists res,
       run (handleGetStudyDetails Sample.registry (Some "NCT00000001"))
         = ([details_query "NCT00000001"], inr res)
       /\ (forall d, res = JsonText d ->
             exists r s rest, Sample.registry (details_query "NCT00000001") = Reply r
                              /\ studies r = s :: rest /\ d = formatDetailedStudy s)
       /\ (forall r, Sample.registry (details_query "NCT00000001") = Reply r ->
             studies r <> [] -> exists d, res = JsonText d)
       /\ (forall r, Sample.registry (details_query "NCT00000001") = Reply r ->
             studies r = [] -> res = ErrorText ("No study found with NCT ID: " ++ "NCT00000001"))
       /\ (forall e, Sample.registry (details_query "NCT00000001") = Failure e ->
             response_status e = Some 404
             -> res = ErrorText ("Study not found: " ++ "NCT00000001")).
Proof.
  apply (details_outcomes Sample.registry "NCT00000001"). reflexivity.
Defined.

Lemma filter_other_ids (id : string) (l : list study) :
  Forall (fun s => sum_nctId s <> id)
    (map formatStudySummary
       (filter (fun s => negb (String.eqb (nctId (identification s)) id)) l)).
Proof.
  induction l as [|s l IH]; simpl; [constructor|].
  destruct (String.eqb_spec (nctId (identification s)) id) as [|Hne]; simpl;
    [exact IH | constructor; [exact Hne | exact IH]].
Qed.

(** [get_similar_studies] on a given identifier: at most two requests, the
    first being the reference lookup; in its result the reference study
    itself never appears among the similar studies, [resultsShown] is
    their number, and a missing or empty [similarityType] reads as
    [CONDITION]. *)
Theorem similar_excludes_reference (upstream : query -> upstream_reply)
    (a : similar_args) (id : string) :
  sim_nctId a = Some id ->
  (fst (run (handleGetSimilarStudies upstream a)) = []
   \/ exists rest, fst (run (handleGetSimilarStudies upstream a))
                   = reference_query id :: rest /\ (length rest <= 1)%nat)
  /\ match snd (run (handleGetSimilarStudies upstream a)) with
     | inr (JsonText o) =>
         sm_reference_nctId o = id
         /\ Forall (fun s => sum_nctId s <> id) (sm_similarStudies o)
         /\ sm_resultsShown o = length (sm_similarStudies o)
         /\ (Js.truthy_str (sim_similarityType a) = false ->
             sm_similarityType o = "CONDITION")
     | _ => True
     end.
Proof.
  intro Hid. unfold handleGetSimilarStudies. rewrite Hid.
  destruct (Nct.nct_ok (Some id)); [|split; [left; reflexivity | exact I]].
  unfold_run. simpl.
  destruct (upstream (reference_query id)) as [r|e]; simpl;
    [|split; [right; exists []; simpl; split; [reflexivity | lia] | exact I]].
  destruct (studies r) as [|ref rs]; simpl;
    [split; [right; exists []; simpl; split; [reflexivity | lia] | exact I]|].
  match goal with |- context [upstream ?q] => destruct (upstream q) as [r2|e2] end; simpl.
  - split; [right; eexists; split; [reflexivity | simpl; lia]|].
    repeat split; [apply filter_other_ids |].
    unfold Js.or_opt_str. destruct (sim_similarityType a) as [t|]; simpl; [|reflexivity].
    intro Ht. apply negb_false_iff, String.eqb_eq in Ht. subst t. reflexivity.
  - split; [right; eexists; split; [reflexivity | simpl; lia] | exact I].
Qed.

Lemma similar_excludes_reference_witness :
  match snd (run (handleGetSimilarStudies Sample.registry
                    (Sample.similar_args_with "NCT00000001" None))) with
  | inr (JsonText o) =>
      sm_reference_nctId o = "NCT00000001"
      /\ Forall (fun s => sum_nctId s <> "NCT00000001") (sm_similarStudies o)
      /\ sm_resultsShown o = length (sm_similarStudies o)
      /\ (Js.truthy_str None = false -> sm_similarityType o = "CONDITION")
  | _ => True
  end.
Proof.
  apply (similar_excludes_reference Sample.registry
           (Sample.similar_args_with "NCT00000001" None) "NCT00000001").
  reflexivity.
Defined.

(** The [switch (similarityType)] of [get_similar_studies]: [CONDITION]
    searches the reference's first condition, [SPONSOR] its lead sponsor's
    name, [PHASE] its first phase. *)
Theorem similarity_routing (ref : study) (ps : option Z) :
  (forall c, first_condition ref = Some c -> c <> "" ->
     lookup_param "query.cond" (similarity_params "CONDITION" ref ps) = Some (PStr c))
  /\ (forall sp, study_sponsor_name ref = Some sp -> sp <> "" ->
     lookup_param "query.spons" (similarity_params "SPONSOR" ref ps) = Some (PStr sp))
  /\ (forall p, first_phase ref = Some p -> p <> "" ->
     lookup_param "filter.phase" (similarity_params "PHASE" ref ps) = Some (PStr p)).
Proof.
  unfold similarity_params; simpl.
  repeat split; intros v Hv Hne; rewrite Hv; unfold set_if_str, Js.truthy_str;
    destruct (String.eqb_spec v "") as [|_]; (contradiction || apply lookup_set_param_same).
Qed.

Lemma similarity_routing_witness :
  lookup_param "query.cond"
    (similarity_params "CONDITION"
       {| identification := identification Sample.s1; status := status Sample.s1;
          sponsorCollaborators := None;
          conditionsMod := Some {| conditions := Some ["Asthma"; "COPD"] |};
          design := None; contactsLocations := None; eligibility := None |} None)
  = Some (PStr "Asthma").
Proof.
  apply (proj1 (similarity_routing
           {| identification := identification Sample.s1; status := status Sample.s1;
              sponsorCollaborators := None;
              conditionsMod := Some {| conditions := Some ["Asthma"; "COPD"] |};
              design := None; contactsLocations := None; eligibility := None |} None)
           "Asthma"); [reflexivity | discriminate].
Defined.

(* ------------------------------------------------------------------ *)
(** ** Error containment                                                *)
(* ------------------------------------------------------------------ *)

Lemma catch_axios_contained {A} (m : M A) (h : axios_error -> M A) (log : list query) :
  (forall e l, no_axios_escape (h e l)) -> no_axios_escape (catch_axios m h log).
Proof.
  intro Hh. unfold catch_axios, no_axios_escape.
  destruct (m log) as [l [[c msg|e]|x]]; [exact I | apply Hh | exact I].
Qed.

Lemma search_page_contained {C E} (upstream : query -> upstream_reply) (params : query)
    (criteria : C) (entry : study -> E) (log : list query) :
  no_axios_escape (search_page upstream params criteria entry log).
Proof. apply catch_axios_contained. intros. exact I. Qed.

Lemma require_arg_contained {A} (x : option string) (msg : string) (k : string -> M A)
    (log : list query) :
  (forall v l, no_axios_escape (k v l)) -> no_axios_escape (require_arg x msg k log).
Proof.
  intro Hk. unfold require_arg. destruct x as [v|]; [destruct (Js.truthy_str (Some v))|];
    [apply Hk | exact I | exact I].
Qed.

Ltac contained :=
  repeat first [ apply search_page_contained
               | apply require_arg_contained; intros
               | apply catch_axios_contained; intros
               | exact I
               | match goal with
                 | |- no_axios_escape ((match ?x with _ => _ end) _) => destruct x
                 | |- no_axios_escape ((if ?b then _ else _) _) => destruct b
                 end ].

(** Every one of the seventeen tool handlers catches the axios errors of
    its requests: what reaches the caller is a result (possibly an
    [isError] one) or an [McpError], never a raw HTTP failure. *)
Theorem handlers_contain_axios_errors (upstream : query -> upstream_reply)
    (sa : search_args) (nid : option string) (ra : recruiting_args) (ea : elig_args)
    (ia : intl_args) (sim : similar_args) (la : location_args) (ca : condition_args)
    (sta : statistics_args) (spa : sponsor_args) (iva : intervention_args)
    (dra : date_range_args) (rsa : results_args) (rda : rare_args)
    (pa : pediatric_args) (oa : outcome_args)
    (futureDate : string) (days_since : string -> option Z) (ta : timeline_args) :
  no_axios_escape (run (handleSearchStudies upstream sa))
  /\ no_axios_escape (run (handleGetStudyDetails upstream nid))
  /\ no_axios_escape (run (handleGetRecruitingStudies upstream ra))
  /\ no_axios_escape (run (handleSearchByEligibilityCriteria upstream ea))
  /\ no_axios_escape (run (handleSearchInternationalStudies upstream ia))
  /\ no_axios_escape (run (handleGetSimilarStudies upstream sim))
  /\ no_axios_escape (run (handleSearchByLocation upstream la))
  /\ no_axios_escape (run (handleSearchByCondition upstream ca))
  /\ no_axios_escape (run (handleGetTrialStatistics upstream sta))
  /\ no_axios_escape (run (handleSearchBySponsor upstream spa))
  /\ no_axios_escape (run (handleSearchByIntervention upstream iva))
  /\ no_axios_escape (run (handleSearchByDateRange upstream dra))
  /\ no_axios_escape (run (handleGetStudiesWithResults upstream rsa))
  /\ no_axios_escape (run (handleSearchRareDiseases upstream rda))
  /\ no_axios_escape (run (handleGetPediatricStudies upstream pa))
  /\ no_axios_escape (run (handleSearchByPrimaryOutcome upstream oa))
  /\ no_axios_escape (run (handleGetStudyTimeline upstream futureDate days_since ta)).
Proof.
  unfold run, handleGetStudyTimeline, handleSearchStudies, handleGetStudyDetails, handleGetRecruitingStudies,
    handleSearchByEligibilityCriteria, handleSearchInternationalStudies,
    handleGetSimilarStudies, handleSearchByLocation, handleSearchByCondition,
    handleGetTrialStatistics, handleSearchBySponsor, handleSearchByIntervention,
    handleSearchByDateRange, handleGetStudiesWithResults, handleSearchRareDiseases,
    handleGetPediatricStudies, handleSearchByPrimaryOutcome.
  repeat split; contained.
  (* the [404] test of [get_study_details] *)
  all: unfold no_axios_escape, ret.
  all: destruct (response_status e) as [[|p|p]|]; try exact I.
  all: repeat (destruct p as [p|p|]; try exact I).
Qed.

(* ------------------------------------------------------------------ *)
(** ** Truncations                                                      *)
(* ------------------------------------------------------------------ *)

Lemma slice0_prefix {A} (n : nat) (l : list A) :
  (length (Js.slice0 n l) <= n)%nat /\ is_prefix (Js.slice0 n l) l.
Proof.
  unfold Js.slice0, is_prefix. split.
  - rewrite length_firstn. lia.
  - exists (skipn n l). symmetry. apply firstn_skipn.
Qed.

(** The summaries keep the first three conditions, the detailed view the
    first ten locations, the international entries a sample of the first
    three locations: always a prefix of the study's own list. *)
Theorem projection_truncations (s : study) :
  (length (sum_conditions (formatStudySummary s)) <= 3)%nat
  /\ is_prefix (sum_conditions (formatStudySummary s))
       (match study_conditions s with Some cs => cs | None => [] end)
  /\ (forall l, det_locations (formatDetailedStudy s) = Some l ->
        (length l <= 10)%nat /\ is_prefix l (location_list s))
  /\ (length (id_sampleLocations (ie_details (international_entry s))) <= 3)%nat
  /\ is_prefix (id_sampleLocations (ie_details (international_entry s))) (location_list s).
Proof.
  unfold formatStudySummary, formatDetailedStudy, international_entry, location_list;
    cbn -[Js.slice0].
  split; [|split; [|split; [|split]]].
  - destruct (study_conditions s); [apply slice0_prefix | simpl; lia].
  - destruct (study_conditions s); [apply slice0_prefix | exists []; reflexivity].
  - intros l Hl. destruct (study_locations s) as [ls|]; [|discriminate].
    change (Some (Js.slice0 10 ls) = Some l) in Hl.
    assert (E : Js.slice0 10 ls = l) by congruence. rewrite <- E. apply slice0_prefix.
  - apply slice0_prefix.
  - apply slice0_prefix.
Qed.

Lemma projection_truncations_witness :
  (length (Js.slice0 10 (location_list Sample.s3)) <= 10)%nat
  /\ is_prefix (Js.slice0 10 (location_list Sample.s3)) (location_list Sample.s3).
Proof.
  apply (proj1 (proj2 (proj2 (projection_truncations Sample.s3)))). reflexivity.
Defined.

Lemma Forall_map_intro {A B} (P : B -> Prop) (f : A -> B) (l : list A) :
  (forall x, In x l -> P (f x)) -> Forall P (map f l).
Proof.
  intro H. apply Forall_map, Forall_forall. exact H.
Qed.

(** The per-study location lists of [get_recruiting_studies] and
    [get_pediatric_studies] hold at most two locations, those of
    [search_by_location] at most three. *)
Theorem handler_location_samples (upstream : query -> upstream_reply)
    (ra : recruiting_args) (pa : pediatric_args) (la : location_args) :
  match snd (run (handleGetRecruitingStudies upstream ra)) with
  | inr (JsonText o) => Forall (fun e => (length (re_locations e) <= 2)%nat) (ro_studies o)
  | _ => True
  end
  /\ match snd (run (handleGetPediatricStudies upstream pa)) with
     | inr (JsonText o) =>
         Forall (fun e => (length (re_locations (rc_entry e)) <= 2)%nat) (pg_studies o)
     | _ => True
     end
  /\ match snd (run (handleSearchByLocation upstream la)) with
     | inr (JsonText o) => Forall (fun e => (length (le_locations e) <= 3)%nat) (pg_studies o)
     | _ => True
     end.
Proof.
  split; [|split].
  - unfold handleGetRecruitingStudies. unfold_run. cbn -[Js.slice0].
    destruct (upstream (recruiting_params ra)) as [r|e]; cbn -[Js.slice0]; [|exact I].
    apply Forall_map_intro. intros s _. cbn -[Js.slice0].
    destruct (study_locations s); [apply (proj1 (slice0_prefix _ _)) | simpl; lia].
  - unfold handleGetPediatricStudies. rewrite search_page_log.
    destruct (upstream (pediatric_params pa)) as [r|e]; cbn -[Js.slice0]; [|exact I].
    apply Forall_map_intro. intros s _. cbn -[Js.slice0].
    destruct (study_locations s); [apply (proj1 (slice0_prefix _ _)) | simpl; lia].
  - unfold handleSearchByLocation. rewrite search_page_log.
    destruct (upstream (location_params la)) as [r|e]; cbn -[Js.slice0]; [|exact I].
    apply Forall_map_intro. intros s _. cbn -[Js.slice0].
    destruct (study_locations s); [apply (proj1 (slice0_prefix _ _)) | simpl; lia].
Qed.

(* ------------------------------------------------------------------ *)
(** ** International entries                                            *)
(* ------------------------------------------------------------------ *)

Lemma international_keep_two (minC : option Z) (ex : option string) (s : study) :
  international_keep minC ex s = true -> (2 <= length (country_set s))%nat.
Proof.
  unfold international_keep.
  destruct (_ && _); [discriminate|]. destruct (_ && _); [discriminate|].
  intro H. apply Z.leb_le in H. lia.
Qed.

(** Each entry of [search_international_studies] lists its countries
    without repetition, counts them in [totalCountries] (at least two), and
    samples at most three of its [totalLocations] locations; the handler
    lets no exception escape. *)
Theorem international_entries_consistent (upstream : query -> upstream_reply)
    (a : intl_args) :
  match snd (run (handleSearchInternationalStudies upstream a)) with
  | inr (JsonText o) =>
      Forall (fun e =>
        id_totalCountries (ie_details e) = length (id_countries (ie_details e))
        /\ NoDup (id_countries (ie_details e))
        /\ (2 <= id_totalCountries (ie_details e))%nat
        /\ (length (id_sampleLocations (ie_details e)) <= 3)%nat
        /\ (length (id_sampleLocations (ie_details e))
            <= id_totalLocations (ie_details e))%nat) (io_studies o)
  | inr (ErrorText _) => True
  | inl _ => False
  end.
Proof.
  unfold handleSearchInternationalStudies. unfold_run. cbn -[Js.slice0].
  destruct (upstream (international_params a)) as [r|e]; cbn -[Js.slice0]; [|exact I].
  apply Forall_map_intro. intros s Hs. apply filter_In in Hs as [_ Hk].
  apply international_keep_two in Hk.
  unfold international_entry; cbn -[Js.slice0].
  split; [reflexivity|]. split; [apply set_of_spec|]. split; [exact Hk|].
  unfold Js.slice0. rewrite length_firstn. split; lia.
Qed.

(* ------------------------------------------------------------------ *)
(** ** Exclusion keywords                                               *)
(* ------------------------------------------------------------------ *)

Lemma lower_char_idem (c : ascii) : Str.lower_char (Str.lower_char c) = Str.lower_char c.
Proof. destruct c as [[] [] [] [] [] [] [] []]; reflexivity. Qed.

Lemma toLowerCase_idem (s : string) : Str.toLowerCase (Str.toLowerCase s) = Str.toLowerCase s.
Proof. induction s as [|c s IH]; simpl; [reflexivity|]. rewrite lower_char_idem, IH. reflexivity. Qed.

(** [search_by_eligibility_criteria] lowercases the exclusion keywords and
    the criteria text alike: keywords that differ only in case exclude the
    same studies. *)
Theorem exclusion_case_insensitive (kw : string) (l : list study) :
  exclusion_filter (Some kw) l = exclusion_filter (Some (Str.toLowerCase kw)) l.
Proof.
  unfold exclusion_filter, Js.truthy_str. rewrite toLowerCase_idem.
  destruct kw; reflexivity.
Qed.

(* ------------------------------------------------------------------ *)
(** ** Statistics handler                                               *)
(* ------------------------------------------------------------------ *)



(* ------------------------------------------------------------------ *)
(** ** No empty parameter is ever sent                                  *)
(* ------------------------------------------------------------------ *)

Lemma sends_only_ret {A} (P : query -> Prop) (a : A) : sends_only P (ret a).
Proof. intros log H. exact H. Qed.

Lemma sends_only_throw {A} (P : query -> Prop) (e : exn) : sends_only P (throw (A := A) e).
Proof. intros log H. exact H. Qed.

Lemma sends_only_http_get (P : query -> Prop) (upstream : query -> upstream_reply)
    (q : query) :
  P q -> sends_only P (http_get upstream q).
Proof.
  intros Hq log H. unfold http_get.
  destruct (upstream q); simpl; apply Forall_app; split; auto.
Qed.

Lemma sends_only_bind {A B} (P : query -> Prop) (m : M A) (k : A -> M B) :
  sends_only P m -> (forall x, sends_only P (k x)) -> sends_only P (bind m k).
Proof.
  intros Hm Hk log H. unfold bind. specialize (Hm log H).
  destruct (m log) as [log' [e|x]]; [exact Hm | apply Hk, Hm].
Qed.

Lemma sends_only_catch {A} (P : query -> Prop) (m : M A) (h : axios_error -> M A) :
  sends_only P m -> (forall e, sends_only P (h e)) -> sends_only P (catch_axios m h).
Proof.
  intros Hm Hh log H. unfold catch_axios. specialize (Hm log H).
  destruct (m log) as [log' [[c msg|e]|x]]; [exact Hm | apply Hh, Hm | exact Hm].
Qed.

Lemma sends_only_require_arg {A} (P : query -> Prop) (x : option string) (msg : string)
    (k : string -> M A) :
  (forall v, v <> "" -> sends_only P (k v)) -> sends_only P (require_arg x msg k).
Proof.
  intro Hk. unfold require_arg. destruct x as [v|]; [|apply sends_only_throw].
  unfold Js.truthy_str. destruct (String.eqb_spec v "") as [E|Hv]; simpl;
    [apply sends_only_throw | apply Hk, Hv].
Qed.

Lemma sends_only_search_page {C E} (P : query -> Prop) (upstream : query -> upstream_reply)
    (params : query) (criteria : C) (entry : study -> E) :
  P params -> sends_only P (search_page upstream params criteria entry).
Proof.
  intro Hp. unfold search_page.
  apply sends_only_catch; [|intro; apply sends_only_ret].
  apply sends_only_bind; [apply sends_only_http_get, Hp | intro; apply sends_only_ret].
Qed.

Lemma ne_set_if_str (k : string) (x : option string) (q : query) :
  no_empty_values q -> no_empty_values (set_if_str k x q).
Proof. intros H k'. apply set_if_str_no_empty, H. Qed.

Lemma ne_set_param (k : string) (v : pval) (q : query) :
  v <> PStr "" -> no_empty_values q -> no_empty_values (set_param k v q).
Proof.
  intros Hv H k' Hin. destruct (set_param_no_empty k v q k' Hin) as [Hq|E];
    [exact (H k' Hq) | injection E as _ Ev; contradiction].
Qed.

Lemma ne_app (q r : query) :
  no_empty_values q -> no_empty_values r -> no_empty_values (q ++ r).
Proof. intros Hq Hr k Hin. apply in_app_iff in Hin as [Hin|Hin]; [exact (Hq k Hin) | exact (Hr k Hin)]. Qed.

Lemma ne_base (ps : option Z) : no_empty_values (base_params ps).
Proof. intros k [H|[H|[]]]; discriminate. Qed.

Lemma pstr_nonempty (v : string) : v <> "" -> PStr v <> PStr "".
Proof. intros Hv E. injection E. exact Hv. Qed.

Lemma pstr_app_nonempty (a b : string) : b <> "" -> PStr (a ++ b) <> PStr "".
Proof. intros Hb E. injection E. destruct a, b; simpl; congruence. Qed.

Lemma nct_ok_nonempty (id : string) : Nct.nct_ok (Some id) = true -> id <> "".
Proof. intros H ->. discriminate. Qed.

Lemma age_range_bounds_nonempty (r lo hi : string) :
  age_range_bounds r = Some (lo, hi) -> lo <> "" /\ hi <> "".
Proof.
  unfold age_range_bounds.
  destruct (String.eqb r "INFANT"); [intro E; injection E as <- <-; split; discriminate|].
  destruct (String.eqb r "CHILD"); [intro E; injection E as <- <-; split; discriminate|].
  destruct (String.eqb r "ADOLESCENT"); [intro E; injection E as <- <-; split; discriminate|].
  discriminate.
Qed.

Lemma truthy_nonempty (v : string) : Js.truthy_str (Some v) = true -> v <> "".
Proof. unfold Js.truthy_str. intros H ->. discriminate. Qed.

(** Builds a parameter object out of assignments of non-empty values. *)
Ltac no_empty :=
  cbv zeta;
  repeat first
    [ apply ne_set_if_str
    | apply ne_base
    | apply ne_set_param;
        [solve [ discriminate | apply pstr_nonempty; assumption
               | apply pstr_app_nonempty; discriminate ]|]
    | apply ne_app; [|let k := fresh in let H := fresh in
                      intros k H; simpl in H; intuition congruence]
    | match goal with
      | H : Js.truthy_str (Some ?v) = true |- _ => apply truthy_nonempty in H
      | H : age_range_bounds _ = Some (_, _) |- _ =>
          apply age_range_bounds_nonempty in H as [? ?]
      | |- no_empty_values (match ?x with _ => _ end) => destruct x eqn:?
      | |- no_empty_values (if ?b then _ else _) => destruct b eqn:?
      end
    | let k := fresh in let H := fresh in
      intros k H; simpl in H; intuition congruence ].

Ltac sends_no_empty :=
  repeat match goal with
  | |- forall _, _ => intro
  | |- sends_only _ (let _ := _ in _) => cbv zeta
  | |- sends_only _ (search_page _ _ _ _) => apply sends_only_search_page
  | |- sends_only _ (require_arg _ _ _) => apply sends_only_require_arg
  | |- sends_only _ (catch_axios _ _) => apply sends_only_catch
  | |- sends_only _ (bind _ _) => apply sends_only_bind
  | |- sends_only _ (http_get _ _) => apply sends_only_http_get
  | |- sends_only _ (ret _) => apply sends_only_ret
  | |- sends_only _ (throw _) => apply sends_only_throw
  | |- sends_only _ (match ?x with _ => _ end) => destruct x eqn:?
  | |- sends_only _ (if ?b then _ else _) => destruct b eqn:?
  | H : Nct.nct_ok (Some _) = true |- _ => apply nct_ok_nonempty in H
  end.

Lemma sends_only_run {A} (P : query -> Prop) (m : M A) :
  sends_only P m -> Forall P (fst (run m)).
Proof. intro H. apply H. constructor. Qed.

(** No request of any of the seventeen tool handlers carries a parameter
    whose value is the empty string: every optional text argument is
    forwarded only when it is truthy, and every required one is checked
    before the request ([get_study_timeline]'s computed start-date bound
    being a non-empty date). *)
Theorem handlers_send_no_empty_values (upstream : query -> upstream_reply)
    (sa : search_args) (nid : option string) (ra : recruiting_args) (ea : elig_args)
    (ia : intl_args) (sim : similar_args) (la : location_args) (ca : condition_args)
    (sta : statistics_args) (spa : sponsor_args) (iva : intervention_args)
    (dra : date_range_args) (rsa : results_args) (rda : rare_args)
    (pa : pediatric_args) (oa : outcome_args)
    (futureDate : string) (days_since : string -> option Z) (ta : timeline_args) :
  futureDate <> "" ->
  Forall no_empty_values (fst (run (handleSearchStudies upstream sa)))
  /\ Forall no_empty_values (fst (run (handleGetStudyDetails upstream nid)))
  /\ Forall no_empty_values (fst (run (handleGetRecruitingStudies upstream ra)))
  /\ Forall no_empty_values (fst (run (handleSearchByEligibilityCriteria upstream ea)))
  /\ Forall no_empty_values (fst (run (handleSearchInternationalStudies upstream ia)))
  /\ Forall no_empty_values (fst (run (handleGetSimilarStudies upstream sim)))
  /\ Forall no_empty_values (fst (run (handleSearchByLocation upstream la)))
  /\ Forall no_empty_values (fst (run (handleSearchByCondition upstream ca)))
  /\ Forall no_empty_values (fst (run (handleGetTrialStatistics upstream sta)))
  /\ Forall no_empty_values (fst (run (handleSearchBySponsor upstream spa)))
  /\ Forall no_empty_values (fst (run (handleSearchByIntervention upstream iva)))
  /\ Forall no_empty_values (fst (run (handleSearchByDateRange upstream dra)))
  /\ Forall no_empty_values (fst (run (handleGetStudiesWithResults upstream rsa)))
  /\ Forall no_empty_values (fst (run (handleSearchRareDiseases upstream rda)))
  /\ Forall no_empty_values (fst (run (handleGetPediatricStudies upstream pa)))
  /\ Forall no_empty_values (fst (run (handleSearchByPrimaryOutcome upstream oa)))
  /\ Forall no_empty_values
       (fst (run (handleGetStudyTimeline upstream futureDate days_since ta))).
Proof.
  intro Hfd.
  repeat split; apply sends_only_run;
    unfold handleGetStudyTimeline, handleSearchStudies, handleGetStudyDetails, handleGetRecruitingStudies,
      handleSearchByEligibilityCriteria, handleSearchInternationalStudies,
      handleGetSimilarStudies, handleSearchByLocation, handleSearchByCondition,
      handleGetTrialStatistics, handleSearchBySponsor, handleSearchByIntervention,
      handleSearchByDateRange, handleGetStudiesWithResults, handleSearchRareDiseases,
      handleGetPediatricStudies, handleSearchByPrimaryOutcome;
    sends_no_empty.
  all: try (intros k; apply similarity_params_no_empty).
  all: unfold search_studies_params, details_query, recruiting_params,
         eligibility_params, international_params, reference_query, location_params,
         condition_params, statistics_params, sponsor_params, intervention_params,
         date_range_params, results_params, rare_params, pediatric_params,
         outcome_params, timeline_params.
  all: no_empty.
Qed.

Lemma handlers_send_no_empty_values_witness :
  Forall no_empty_values
    (fst (run (handleSearchStudies Sample.registry (Sample.search_args_page None))))
  /\ Forall no_empty_values
       (fst (run (handleGetStudyDetails Sample.registry (Some "NCT00000001"))))
  /\ Forall no_empty_values
       (fst (run (handleGetRecruitingStudies Sample.registry
                    (Sample.recruiting_args_page None))))
  /\ Forall no_empty_values
       (fst (run (handleSearchByEligibilityCriteria Sample.registry
                    (Sample.elig_args_with (Some "")))))
  /\ Forall no_empty_values
       (fst (run (handleSearchInternationalStudies Sample.registry
                    (Sample.intl_args_with None (Some "")))))
  /\ Forall no_empty_values
       (fst (run (handleGetSimilarStudies Sample.registry
                    (Sample.similar_args_with "NCT00000001" (Some "SPONSOR")))))
  /\ Forall no_empty_values
       (fst (run (handleSearchByLocation Sample.registry (Sample.location_args_page None))))
  /\ Forall no_empty_values
       (fst (run (handleSearchByCondition Sample.registry (Sample.condition_args_page None))))
  /\ Forall no_empty_values
       (fst (run (handleGetTrialStatistics Sample.registry
                    (Sample.statistics_args_by (Some "phase")))))
  /\ Forall no_empty_values
       (fst (run (handleSearchBySponsor Sample.registry (Sample.sponsor_args_page None))))
  /\ Forall no_empty_values
       (fst (run (handleSearchByIntervention Sample.registry
                    (Sample.intervention_args_page None))))
  /\ Forall no_empty_values
       (fst (run (handleSearchByDateRange Sample.registry (Sample.date_range_args_page None))))
  /\ Forall no_empty_values
       (fst (run (handleGetStudiesWithResults Sample.registry
                    (Sample.results_args_page None))))
  /\ Forall no_empty_values
       (fst (run (handleSearchRareDiseases Sample.registry (Sample.rare_args_page None))))
  /\ Forall no_empty_values
       (fst (run (handleGetPediatricStudies Sample.registry (Sample.pediatric_args_page None))))
  /\ Forall no_empty_values
       (fst (run (handleSearchByPrimaryOutcome Sample.registry
                    (Sample.outcome_args_page None))))
  /\ Forall no_empty_values
       (fst (run (handleGetStudyTimeline Sample.registry Sample.future_date Sample.days_since
                    (Sample.timeline_args_page None)))).
Proof.
  apply handlers_send_no_empty_values. discriminate.
Defined.

(** The filters applied on the client never reach the registry: the
    exclusion keywords of [search_by_eligibility_criteria], the
    [minCountries] and [excludeCountry] of [search_international_studies]
    and the [groupBy] of [get_trial_statistics] leave the request
    unchanged. *)
Theorem client_side_filters_not_sent (ea : elig_args) (kw : option string)
    (ia : intl_args) (m : option Z) (ex : option string)
    (sta : statistics_args) (g : option string) :
  eligibility_params
    {| ea_minAge := ea_minAge ea; ea_maxAge := ea_maxAge ea; ea_sex := ea_sex ea;
       ea_healthyVolunteers := ea_healthyVolunteers ea; ea_condition := ea_condition ea;
       ea_exclusionKeywords := kw; ea_inclusionKeywords := ea_inclusionKeywords ea;
       ea_pageSize := ea_pageSize ea |}
  = eligibility_params ea
  /\ international_params
    {| ia_condition := ia_condition ia; ia_excludeCountry := ex;
       ia_includeCountry := ia_includeCountry ia; ia_minCountries := m;
       ia_phase := ia_phase ia; ia_pageSize := ia_pageSize ia |}
  = international_params ia
  /\ statistics_params {| st_groupBy := g; st_filters := st_filters sta |}
  = statistics_params sta.
Proof. repeat split. Qed.
